(** * The [newcert] issuance handler of cfssl

    A shallow embedding of [Handler.Handle] and [computeSum] (package
    [newcert]) and the properties of the issuance pipeline that follow
    from the code: which collaborator calls a request causes, in which
    order, and what is returned to the caller.

    Go packages are Rocq modules of the same name.  A [[]byte] is a
    [list Byte.byte], a Go [string] a [string], a pointer that may be
    [nil] an [option], a [map[string]interface{}] a [gmap string value].
    Calls into collaborators (generator, signer, bundler, OCSP signer,
    certificate store, response writer) thread an abstract [World] and
    are recorded, with what they returned, in the trace of the run. *)

From Stdlib Require Import ZArith String Ascii List DecimalString Sorted.
From Stdlib.Strings Require Import Byte.
From stdpp Require Import base option gmap strings.
Import ListNotations.

Local Open Scope string_scope.
Local Open Scope Z_scope.
Local Open Scope list_scope.

Abbreviation bytes := (list Byte.byte).

(** ** Package [errors] *)

Module errors.

(** [errors.Error]: an error with a numeric code. *)
Record Error : Type := mkError {
  ErrorCode : Z;
  Message : string
}.

(** The dynamic values of Go's [error] interface that the handler
    creates, wraps or passes on: [errors.New]/[fmt.Errorf] strings of the
    standard library, the package's coded [Error] and its [HTTPError]
    wrapper. *)
Inductive error : Type :=
| errorString (s : string)
| codedError (e : Error)
| HTTPError (StatusCode : Z) (err : error).

(** [Category] and [Reason] are integer types. *)
Definition Category : Type := Z.
Definition Reason : Type := Z.

(** [http.StatusBadRequest] *)
Definition StatusBadRequest : Z := 400.

Definition NewBadRequest (err : error) : error :=
  HTTPError StatusBadRequest err.

Definition NewBadRequestString (s : string) : error :=
  NewBadRequest (errorString s).

(** The HTTP status class a failure is answered with: the status of an
    [HTTPError], none for any other error value. *)
Definition StatusCode (e : error) : option Z :=
  match e with
  | HTTPError c _ => Some c
  | _ => None
  end.

Definition is_client_error (e : error) : bool :=
  match StatusCode e with
  | Some c => (400 <=? c) && (c <? 500)
  | None => false
  end.

End errors.

Abbreviation error := errors.error.

(** A Go call returning [(v, err)]: [Ok v] when [err == nil]. *)
Inductive result (A : Type) : Type :=
| Ok (a : A)
| Err (e : error).
Arguments Ok {A} a.
Arguments Err {A} e.

Definition is_Ok {A} (r : result A) : bool :=
  match r with Ok _ => true | Err _ => false end.

(** ** Standard-library data *)

Module time.
(** A [time.Time], by what the handler reads of it. *)
Record Time : Type := mkTime { Unix : Z; Nanosecond : Z }.
End time.

Module pem.
Record Block : Type := mkBlock {
  Type_ : string;
  Headers : list (string * string);
  Bytes : bytes
}.
End pem.

Module x509.
Record Certificate : Type := mkCertificate {
  Raw : bytes;
  SerialNumber : Z;
  AuthorityKeyId : bytes
}.

(** [RawCSR] is the field [Raw] of [x509.CertificateRequest]. *)
Record CertificateRequest : Type := mkCertificateRequest {
  RawCSR : bytes
}.
End x509.

Module stdocsp.
Record Response : Type := mkResponse {
  ThisUpdate : time.Time;
  NextUpdate : time.Time
}.
End stdocsp.

(** The [String] method of [big.Int]: the decimal numeral, with a sign
    when negative. *)
Definition big_String (n : Z) : string :=
  NilZero.string_of_int (Z.to_int n).

(** ** Hexadecimal printing *)

Definition hexdigit (upper : bool) (n : N) : ascii :=
  if (n <? 10)%N then ascii_of_N (48 + n)
  else ascii_of_N ((if upper then 55 else 87) + n).

Fixpoint hexstring (upper : bool) (bs : bytes) : string :=
  match bs with
  | [] => EmptyString
  | b :: bs' =>
      let n := Byte.to_N b in
      String (hexdigit upper (n / 16)%N)
        (String (hexdigit upper (n mod 16)%N) (hexstring upper bs'))
  end.

(** [fmt.Sprintf("%X", bs)] on a byte slice. *)
Definition Sprintf_X (bs : bytes) : string := hexstring true bs.

Module hex.
Definition EncodeToString (bs : bytes) : string := hexstring false bs.
End hex.

(** ** Packages of the repository the handler calls into *)

Module log.
Inductive Level : Type := Info | Warning | Critical.
End log.

Module csr.

(** Modelled from the spec: the declaration of [csr.CAConfig] is not part
    of the handler's file; the spec calls it the optional embedded
    CA-extension of the subject descriptor.  The handler only tests the
    pointer to it against [nil]. *)
Record CAConfig : Type := mkCAConfig {
  PathLength : Z;
  Expiry : string
}.

(** Modelled from the spec: the declaration of [csr.CertificateRequest]
    is not part of the handler's file; spec section 3 gives the subject
    descriptor as names, key algorithm, SAN host list and the optional
    CA-extension.  The handler reads [Hosts] and [CA]. *)
Record CertificateRequest : Type := mkCertificateRequest {
  CN : string;
  Names : list string;
  Hosts : list string;
  KeyRequest : option (string * Z);
  CA : option CAConfig
}.

(** [csr.Generator]: [ProcessRequest] validates the request and returns
    the CSR and the private key, both PEM.  It is given a pointer to the
    request, which the generator and its validator may write through: the
    call also yields the request as they leave it. *)
Record Generator (World : Type) : Type := mkGenerator {
  ProcessRequest :
    CertificateRequest ->
    World -> (result (bytes * bytes) * CertificateRequest) * World
}.
Arguments ProcessRequest {World} _ _ _.

End csr.

Module certdb.

Record OCSPRecord : Type := mkOCSPRecord {
  Serial : string;
  AKI : string;
  Body : string;
  Expiry : time.Time
}.

(** The one method of [certdb.Accessor] the handler calls. *)
Record Accessor (World : Type) : Type := mkAccessor {
  InsertOCSP : OCSPRecord -> World -> option error * World
}.
Arguments InsertOCSP {World} _ _ _.

End certdb.

Module signer.

(** The fields of [signer.SignRequest] the handler sets; the others keep
    their zero value. *)
Record SignRequest : Type := mkSignRequest {
  Request : string;
  Profile : string;
  Label : string
}.

(** Interface [signer.Signer], by the two methods the handler calls.
    [GetDBAccessor] may return a [nil] accessor. *)
Record Signer (World : Type) : Type := mkSigner {
  Sign : SignRequest -> World -> result bytes * World;
  GetDBAccessor : World -> option (certdb.Accessor World) * World
}.
Arguments Sign {World} _ _ _.
Arguments GetDBAccessor {World} _ _.

End signer.

Module ocsp.

Record SignRequest : Type := mkSignRequest {
  Certificate : x509.Certificate;
  Status : string
}.

(** Interface [ocsp.Signer]. *)
Record Signer (World : Type) : Type := mkSigner {
  Sign : SignRequest -> World -> result bytes * World
}.
Arguments Sign {World} _ _ _.

End ocsp.

Module bundler.

Inductive BundleFlavor : Type := Optimal | Ubiquitous | Force.

Record Bundle : Type := mkBundle {
  Cert : x509.Certificate;
  Chain : list x509.Certificate;
  Expires : time.Time
}.

(** [BundleFromPEMorDER certs key flavor password] returns a bundle, a
    [nil] bundle, or an error. *)
Record Bundler (World : Type) : Type := mkBundler {
  BundleFromPEMorDER :
    bytes -> option bytes -> BundleFlavor -> string ->
    World -> result (option Bundle) * World
}.
Arguments BundleFromPEMorDER {World} _ _ _ _ _ _.

End bundler.

Module api.

Record ResponseMessage : Type := mkResponseMessage {
  Code : Z;
  Message : string
}.

(** Modelled from the spec: [api.Response], [api.SendResponse] and
    [api.SendResponseWithMessage] are not part of the handler's file.
    Spec section 6: the wire response on success is the result object,
    "optionally accompanied by an advisory message and a policy-error
    code"; on failure it is a structured code and message. *)
Record Response (R : Type) : Type := mkResponse {
  Success : bool;
  Result : R;
  Errors : list ResponseMessage;
  Messages : list ResponseMessage
}.
Arguments mkResponse {R} _ _ _ _.
Arguments Success {R} _.
Arguments Result {R} _.
Arguments Errors {R} _.
Arguments Messages {R} _.

Definition NewSuccessResponse {R} (result : R) : Response R :=
  mkResponse true result [] [].

Definition NewSuccessResponseWithMessage {R}
    (result : R) (message : string) (code : Z) : Response R :=
  mkResponse true result [] [mkResponseMessage code message].

End api.

Module http.

(** An [http.ResponseWriter], by what the handler does with it: a
    response is encoded to it, which may fail. *)
Definition ResponseWriter (World R : Type) : Type :=
  api.Response R -> World -> option error * World.

(** An [http.Request], by its body: what [io.ReadAll] gets from it. *)
Record Request : Type := mkRequest {
  Body : result bytes
}.

End http.

(** ** Package [newcert]: data *)

Definition quote : string := String (ascii_of_N 34) EmptyString.
Definition newline : string := String (ascii_of_N 10) EmptyString.

(** [CSRNoHostMessage] is used to alert the user to a certificate lacking
    a hosts field. *)
Definition CSRNoHostMessage : string :=
  ("This certificate lacks a " ++ quote ++ "hosts" ++ quote
  ++ " field. This makes it unsuitable for" ++ newline
  ++ "websites. For more information see the Baseline Requirements for the Issuance and Management"
  ++ newline
  ++ "of Publicly-Trusted Certificates, v.1.1.6, from the CA/Browser Forum (https://cabforum.org);"
  ++ newline
  ++ "specifically, section 10.2.3 (" ++ quote ++ "Information Requirements"
  ++ quote ++ ").")%string.

Record newCertRequest : Type := mknewCertRequest {
  Request : option csr.CertificateRequest;
  Profile : string;
  Label : string;
  Bundle : bool
}.

(** [Sum] contains digests for a certificate or certificate request. *)
Record Sum : Type := mkSum {
  MD5 : string;
  SHA1 : string;
  SHA256 : string
}.

(** The values stored in the handler's [map[string]interface{}]. *)
Inductive value : Type :=
| VString (s : string)
| VInt64 (n : Z)
| VSums (m : gmap string Sum).

(** ** What the handler uses and its file does not define

    Functions of Go's standard library and of [golang.org/x/crypto],
    and the constants and the constructor of package [errors] behind
    [errors.New(errors.PolicyError, errors.InvalidRequest)].  All are
    pure. *)
Class Lib : Type := mkLib {
  pem_Decode : bytes -> option pem.Block * bytes;
  x509_ParseCertificateRequest : bytes -> result x509.CertificateRequest;
  x509_ParseCertificate : bytes -> result x509.Certificate;
  md5_Sum : bytes -> bytes;
  sha1_Sum : bytes -> bytes;
  sha256_Sum256 : bytes -> bytes;
  json_Unmarshal : bytes -> newCertRequest -> result newCertRequest;
  stdocsp_ParseResponse :
    bytes -> option x509.Certificate -> result stdocsp.Response;
  csr_New : csr.CertificateRequest;
  errors_PolicyError : errors.Category;
  errors_InvalidRequest : errors.Reason;
  errors_New : errors.Category -> errors.Reason -> errors.Error
}.

Definition io_ReadAll (r : result bytes) : result bytes := r.

(** ** [computeSum] *)

Section Fingerprint.
Context `{Lib}.

(** The function has named results [(sum Sum, err error)]: a bare
    [return] yields the zero [Sum] together with the error set so far. *)
Definition computeSum (in_ : bytes) : Sum * option error :=
  let sum := mkSum EmptyString EmptyString EmptyString in
  let '(p, _) := pem_Decode in_ in
  match p with
  | None => (sum, Some (errors.NewBadRequestString "not a CSR or certificate"))
  | Some p =>
      let data : result bytes :=
        if String.eqb (pem.Type_ p) "CERTIFICATE REQUEST" then
          match x509_ParseCertificateRequest (pem.Bytes p) with
          | Err err => Err err
          | Ok req => Ok (x509.RawCSR req)
          end
        else if String.eqb (pem.Type_ p) "CERTIFICATE" then
          match x509_ParseCertificate (pem.Bytes p) with
          | Err err => Err err
          | Ok cert => Ok (x509.Raw cert)
          end
        else Err (errors.NewBadRequestString "not a CSR or certificate")
      in
      match data with
      | Err err => (sum, Some err)
      | Ok data =>
          let md5Sum := md5_Sum data in
          let sha1Sum := sha1_Sum data in
          let sha256Sum := sha256_Sum256 data in
          (mkSum (Sprintf_X md5Sum) (Sprintf_X sha1Sum) (Sprintf_X sha256Sum),
           None)
      end
  end.

End Fingerprint.

(** ** Runs of the handler *)

Abbreviation Result := (gmap string value).

(** What a run does that can be seen from outside: log lines and the
    calls into collaborators, each with what it returned.  The parsing of
    the OCSP response is recorded as well, so that the whole revocation
    stage shows in the trace. *)
Inductive Event : Type :=
| EvLog (level : log.Level) (format : string) (arg : option error)
| EvProcessRequest (req : csr.CertificateRequest)
    (ret : result (bytes * bytes))
| EvSign (req : signer.SignRequest) (ret : result bytes)
| EvBundle (certs : bytes) (key : option bytes)
    (flavor : bundler.BundleFlavor) (password : string)
    (ret : result (option bundler.Bundle))
| EvOCSPSign (req : ocsp.SignRequest) (ret : result bytes)
| EvParseResponse (resp : bytes) (issuer : option x509.Certificate)
    (ret : result stdocsp.Response)
| EvGetDBAccessor (isnil : bool)
| EvInsertOCSP (rec : certdb.OCSPRecord) (ret : option error)
| EvSendResponse (resp : api.Response Result) (ret : option error).

(** How a piece of the function's body ends: it goes on with a value, the
    function returns (an error or [nil]), or the goroutine panics. *)
Inductive step (A : Type) : Type :=
| Next (a : A)
| Return (err : option error)
| Panic.
Arguments Next {A} a.
Arguments Return {A} err.
Arguments Panic {A}.

Section Monad.
Context {World : Type}.

Definition M (A : Type) : Type := World -> step A * World * list Event.

Definition ret {A} (a : A) : M A := fun wd => (Next a, wd, []).

Definition bind {A B} (m : M A) (k : A -> M B) : M B :=
  fun wd =>
    match m wd with
    | (Next a, wd1, t1) =>
        match k a wd1 with
        | (s, wd2, t2) => (s, wd2, t1 ++ t2)
        end
    | (Return err, wd1, t1) => (Return err, wd1, t1)
    | (Panic, wd1, t1) => (Panic, wd1, t1)
    end.

(** [return err] *)
Definition return_ {A} (err : option error) : M A :=
  fun wd => (Return err, wd, []).

Definition panic {A} : M A := fun wd => (Panic, wd, []).

(** A call into a collaborator: it may change the world, and the trace
    gets the call and its result. *)
Definition call {A} (f : World -> A * World) (ev : A -> Event) : M A :=
  fun wd => match f wd with (a, wd') => (Next a, wd', [ev a]) end.

(** A call of a pure function that the trace records. *)
Definition observe {A} (a : A) (ev : A -> Event) : M A :=
  fun wd => (Next a, wd, [ev a]).

Definition emit (e : Event) : M unit := fun wd => (Next tt, wd, [e]).

(** [if c { body }], where [body] ends in a [return]. *)
Definition when (c : bool) (body : M Empty_set) : M unit :=
  if c then bind body (fun x => match x with end) else ret tt.

(** [v, err := f(); if err != nil { body; return e }] *)
Definition or_return {A} (r : result A) (body : error -> M error) : M A :=
  match r with
  | Ok a => ret a
  | Err err => bind (body err) (fun e => return_ (Some e))
  end.

(** Dereferencing a pointer: a [nil] pointer panics. *)
Definition deref {A} (p : option A) : M A :=
  match p with
  | Some a => ret a
  | None => panic
  end.

End Monad.

Declare Scope go_scope.
Delimit Scope go_scope with go.
Notation "x <- m ;; k" := (bind m (fun x => k))
  (at level 100, m at next level, right associativity) : go_scope.
Notation "m ;; k" := (bind m (fun _ => k))
  (at level 100, right associativity) : go_scope.

Definition is_nil {A} (p : option A) : bool :=
  match p with Some _ => false | None => true end.

(** ** [Handler] and [Handle] *)

Section Handler.
Context {World : Type} `{Lib}.

Local Open Scope go_scope.

(** [Handler] accepts JSON-encoded certificate requests and returns a new
    private key and signed certificate; it handles sending the CSR to the
    server and create an OCSP response for the certificate.

    Of the four fields only [ocspSigner] is modelled as possibly nil, the
    one the code tests.  [NewHandler] stores the signer it is given
    unchecked; a handler with a nil signer, which would panic at the
    call of [Sign], is not among the handlers described here. *)
Record Handler : Type := mkHandler {
  csrGen : csr.Generator World;
  bundler : bundler.Bundler World;
  signer : signer.Signer World;
  ocspSigner : option (ocsp.Signer World)
}.

Definition log_Info (msg : string) : M (World := World) unit :=
  emit (EvLog log.Info msg None).
Definition log_Warning (msg : string) : M (World := World) unit :=
  emit (EvLog log.Warning msg None).
Definition log_Warningf (format : string) (arg : option error)
  : M (World := World) unit :=
  emit (EvLog log.Warning format arg).
Definition log_Critical (msg : string) (arg : option error)
  : M (World := World) unit :=
  emit (EvLog log.Critical msg arg).

(** Modelled from the spec: [api.SendResponse] is not part of the
    handler's file; it answers with the success response around
    [result] and returns the error of writing it, if any. *)
Definition api_SendResponse (w : http.ResponseWriter World Result)
    (result : Result) : M (World := World) Empty_set :=
  let response := api.NewSuccessResponse result in
  err <- call (w response) (EvSendResponse response) ;;
  return_ err.

(** Modelled from the spec: [api.SendResponseWithMessage] is not part of
    the handler's file; as [api.SendResponse], with the message and its
    code next to the result (spec section 6: "optionally accompanied by
    an advisory message and a policy-error code"). *)
Definition api_SendResponseWithMessage (w : http.ResponseWriter World Result)
    (result : Result) (message : string) (code : Z)
  : M (World := World) Empty_set :=
  let response := api.NewSuccessResponseWithMessage result message code in
  err <- call (w response) (EvSendResponse response) ;;
  return_ err.

(** [Handle] handles HTTP requests to generate certificates. *)
Definition Handle (h : Handler) (w : http.ResponseWriter World Result)
    (r : http.Request) : M (World := World) Empty_set :=
  log_Info "request for csr (with ocsp support)" ;;

  let newCert := mknewCertRequest (Some csr_New) EmptyString EmptyString false in

  body <- or_return (io_ReadAll (http.Body r)) (fun err =>
    log_Warningf "failed to read request body: %v" (Some err) ;;
    ret (errors.NewBadRequest err)) ;;

  newCert <- or_return (json_Unmarshal body newCert) (fun err =>
    log_Warningf "failed to unmarshal request: %v" (Some err) ;;
    ret (errors.NewBadRequest err)) ;;

  when (is_nil (Request newCert)) (
    log_Warning "empty request received" ;;
    return_ (Some (errors.NewBadRequestString "missing request section"))) ;;
  newCert_Request <- deref (Request newCert) ;;

  when (negb (is_nil (csr.CA newCert_Request))) (
    log_Warningf "request received with CA section" None ;;
    return_ (Some (errors.NewBadRequestString
                     "ca section only permitted in initca"))) ;;

  csr_key <- call (csr.ProcessRequest (csrGen h) newCert_Request)
                  (fun ret => EvProcessRequest newCert_Request (fst ret)) ;;
  (* newCert.Request points to the request as the generator left it *)
  let newCert_Request := snd csr_key in
  csr_key <- or_return (fst csr_key) (fun err =>
    log_Warningf "failed to process CSR: %v" (Some err) ;;
    (* The validator returns a cfssl/errors.HttpError *)
    ret err) ;;
  let csr := fst csr_key in
  let key := snd csr_key in

  let signReq := signer.mkSignRequest
                   (string_of_list_byte csr) (Profile newCert) (Label newCert) in

  certBytes <- call (signer.Sign (signer h) signReq) (EvSign signReq) ;;
  certBytes <- or_return certBytes (fun err =>
    log_Warningf "failed to sign request: %v" (Some err) ;;
    ret err) ;;

  let '(reqSum, err) := computeSum csr in
  when (negb (is_nil err)) (
    err <- deref err ;;
    return_ (Some (errors.NewBadRequest err))) ;;

  let '(certSum, err) := computeSum certBytes in
  when (negb (is_nil err)) (
    err <- deref err ;;
    return_ (Some (errors.NewBadRequest err))) ;;

  bundle <- call (bundler.BundleFromPEMorDER (bundler h)
                    certBytes None bundler.Optimal EmptyString)
                 (EvBundle certBytes None bundler.Optimal EmptyString) ;;
  bundle <- or_return bundle (fun err => ret err) ;;

  when (is_nil bundle) (
    log_Critical "failed to bundle certificate" None ;;
    return_ (Some (errors.errorString "failed to bundle certificate"))) ;;
  bundle <- deref bundle ;;

  match ocspSigner h with
  | Some h_ocspSigner =>
      let ocspReq := ocsp.mkSignRequest (bundler.Cert bundle) "good" in

      ocspResponse <- call (ocsp.Sign h_ocspSigner ocspReq)
                           (EvOCSPSign ocspReq) ;;
      ocspResponse <- or_return ocspResponse (fun err =>
        log_Critical "Unable to sign OCSP response: " (Some err) ;;
        ret err) ;;

      (* We parse the OCSP response in order to get the next
         update time/expiry time *)
      ocspParsed <- observe (stdocsp_ParseResponse ocspResponse None)
                            (EvParseResponse ocspResponse None) ;;
      ocspParsed <- or_return ocspParsed (fun err => ret err) ;;

      let ocspRecord := certdb.mkOCSPRecord
            (big_String (x509.SerialNumber (bundler.Cert bundle)))
            (hex.EncodeToString (x509.AuthorityKeyId (bundler.Cert bundle)))
            (string_of_list_byte ocspResponse)
            (stdocsp.NextUpdate ocspParsed) in

      dbAccessor <- call (signer.GetDBAccessor (signer h))
                         (fun a => EvGetDBAccessor (is_nil a)) ;;
      dbAccessor <- deref dbAccessor ;;
      err <- call (certdb.InsertOCSP dbAccessor ocspRecord)
                  (EvInsertOCSP ocspRecord) ;;
      when (negb (is_nil err)) (
        log_Critical "Unable to insert OCSP response: " err ;;
        return_ err)
  | None => ret tt
  end ;;

  let result : Result :=
    {[ "private_key" := VString (string_of_list_byte key);
       "certificate_request" := VString (string_of_list_byte csr);
       "certificate" := VString (string_of_list_byte certBytes);
       "serial_number" :=
         VString (big_String (x509.SerialNumber (bundler.Cert bundle)));
       "expiration" := VInt64 (time.Unix (bundler.Expires bundle));
       "sums" := VSums {[ "certificate_request" := reqSum;
                          "certificate" := certSum ]} ]} in

  if (length (csr.Hosts newCert_Request) =? 0)%nat then
    api_SendResponseWithMessage w result CSRNoHostMessage
      (errors.ErrorCode (errors_New errors_PolicyError errors_InvalidRequest))
  else
    api_SendResponse w result.

End Handler.

(** ** Properties of a run, as predicates on its trace *)

(** The empty request the body is decoded into. *)
Definition emptyRequest `{Lib} : newCertRequest :=
  mknewCertRequest (Some csr_New) EmptyString EmptyString false.

(** The body of [r] was read and decoded to [n]. *)
Definition decodes_to `{Lib} (r : http.Request) (n : newCertRequest) : Prop :=
  exists body,
    http.Body r = Ok body /\ json_Unmarshal body emptyRequest = Ok n.

(** Calls of the generation and signing stage. *)
Definition is_issuance_call (e : Event) : bool :=
  match e with
  | EvProcessRequest _ _ | EvSign _ _ => true
  | _ => false
  end.

(** Calls of the revocation stage: OCSP signing, parsing of the OCSP
    response, access to the certificate store. *)
Definition is_revocation_call (e : Event) : bool :=
  match e with
  | EvOCSPSign _ _ | EvParseResponse _ _ _
  | EvGetDBAccessor _ | EvInsertOCSP _ _ => true
  | _ => false
  end.

Definition is_response (e : Event) : bool :=
  match e with
  | EvSendResponse _ _ => true
  | _ => false
  end.

(** Any call into a collaborator, log lines apart. *)
Definition is_call (e : Event) : bool :=
  match e with
  | EvLog _ _ _ => false
  | _ => true
  end.

(** The trace without its log lines. *)
Definition calls (tr : list Event) : list Event := filter is_call tr.

(** The advisory that goes with a certificate without hosts. *)
Definition advisory `{Lib} : api.ResponseMessage :=
  api.mkResponseMessage
    (errors.ErrorCode (errors_New errors_PolicyError errors_InvalidRequest))
    CSRNoHostMessage.

(** The statement that the [expiration] of every response sent is the next
    update of the OCSP response parsed in the same run. *)
Definition expiration_is_next_update {World} `{Lib}
    (h : Handler (World := World)) (w : http.ResponseWriter World Result)
    (r : http.Request) (wd : World) : Prop :=
  forall s wd' tr body issuer parsed rec resp ret,
    ocspSigner h <> None ->
    Handle h w r wd = (s, wd', tr) ->
    In (EvParseResponse body issuer (Ok parsed)) tr ->
    In (EvInsertOCSP rec None) tr ->
    In (EvSendResponse resp ret) tr ->
    api.Result resp !! "expiration"
      = Some (VInt64 (time.Unix (stdocsp.NextUpdate parsed))).

(** The revocation stage of [h] goes through for the bundle [bundle],
    from the world [wd] to the world [wd'], with the calls [evs]: there
    is nothing to do without OCSP signer; with one, the OCSP response is
    signed and parsed, the signer has a store, and the store takes the
    record. *)
Definition revocation_succeeds {World} `{Lib} (h : Handler (World := World))
    (bundle : bundler.Bundle) (wd wd' : World) (evs : list Event) : Prop :=
  match ocspSigner h with
  | None => wd' = wd /\ evs = []
  | Some h_ocspSigner =>
      exists ocspResponse wd1 ocspParsed dbAccessor wd2,
        let ocspReq := ocsp.mkSignRequest (bundler.Cert bundle) "good" in
        let ocspRecord := certdb.mkOCSPRecord
              (big_String (x509.SerialNumber (bundler.Cert bundle)))
              (hex.EncodeToString
                 (x509.AuthorityKeyId (bundler.Cert bundle)))
              (string_of_list_byte ocspResponse)
              (stdocsp.NextUpdate ocspParsed) in
        ocsp.Sign h_ocspSigner ocspReq wd = (Ok ocspResponse, wd1)
        /\ stdocsp_ParseResponse ocspResponse None = Ok ocspParsed
        /\ signer.GetDBAccessor (signer h) wd1 = (Some dbAccessor, wd2)
        /\ certdb.InsertOCSP dbAccessor ocspRecord wd2 = (None, wd')
        /\ evs = [EvOCSPSign ocspReq (Ok ocspResponse);
                  EvParseResponse ocspResponse None (Ok ocspParsed);
                  EvGetDBAccessor false;
                  EvInsertOCSP ocspRecord None]
  end.

(** ** [NewHandler] and its options *)

Module options.
Record t (World : Type) : Type := mk {
  ocspSigner : option (ocsp.Signer World);
  caBundleFile : string;
  intBundleFile : string
}.
Arguments mk {World} _ _ _.
Arguments ocspSigner {World} _.
Arguments caBundleFile {World} _.
Arguments intBundleFile {World} _.
End options.

(** [Validator] is a type of function that contains the logic for
    validating a certificate request.  It is given a pointer to the
    request: it yields its error and the request as it leaves it. *)
Definition Validator : Type :=
  csr.CertificateRequest -> option error * csr.CertificateRequest.

(** What [NewHandler] uses and its file does not define:
    [bundler.NewBundler], which reads the two bundle files, and the
    generator [&csr.Generator{Validator: validator}] with its methods. *)
Class Build (World : Type) : Type := mkBuild {
  bundler_NewBundler :
    string -> string -> World -> result (bundler.Bundler World) * World;
  csr_Generator : Validator -> csr.Generator World
}.

Section NewHandler.
Context {World : Type} `{Lib} `{Build World}.

(** [Opt] is a functional option for configuring a new Handler.  The
    option updates the [options] it is given a pointer to. *)
Definition Opt : Type := options.t World -> options.t World.

(** [WithOCSPSigner] sets the OCSP signer for the Handler. *)
Definition WithOCSPSigner (signer : option (ocsp.Signer World)) : Opt :=
  fun o =>
    options.mk signer (options.caBundleFile o) (options.intBundleFile o).

(** [WithBundler] sets the CA and intermediate bundle files for the
    Handler. *)
Definition WithBundler (caBundleFile intBundleFile : string) : Opt :=
  fun o => options.mk (options.ocspSigner o) caBundleFile intBundleFile.

(** [api.HTTPHandler], by the two fields [NewHandler] sets. *)
Record HTTPHandler : Type := mkHTTPHandler {
  HTTPHandler_Handler : Handler (World := World);
  Methods : list string
}.

(** [NewHandler] creates a new Handler for generating certificates
    directly from certificate requests. *)
Definition NewHandler (validator : Validator) (signer : signer.Signer World)
    (opts : list Opt) (wd : World) : result HTTPHandler * World :=
  let hdl_csrGen := csr_Generator validator in
  let hdl_signer := signer in

  let options :=
    fold_left (fun options (opt : Opt) => opt options) opts
      (options.mk None EmptyString EmptyString) in

  match bundler_NewBundler (options.caBundleFile options)
          (options.intBundleFile options) wd with
  | (Err err, wd') => (Err err, wd')
  | (Ok bundler, wd') =>
      let hdl_bundler := bundler in
      let hdl_ocspSigner := options.ocspSigner options in
      (Ok (mkHTTPHandler
             (mkHandler hdl_csrGen hdl_bundler hdl_signer hdl_ocspSigner)
             ["POST"]),
       wd')
  end.

End NewHandler.

(** ** More predicates on traces *)

(** The place of a call in the pipeline; log lines have none. *)
Definition stage (e : Event) : option nat :=
  match e with
  | EvLog _ _ _ => None
  | EvProcessRequest _ _ => Some 1%nat
  | EvSign _ _ => Some 2%nat
  | EvBundle _ _ _ _ _ => Some 3%nat
  | EvOCSPSign _ _ => Some 4%nat
  | EvParseResponse _ _ _ => Some 5%nat
  | EvGetDBAccessor _ => Some 6%nat
  | EvInsertOCSP _ _ => Some 7%nat
  | EvSendResponse _ _ => Some 8%nat
  end.

Fixpoint stages (tr : list Event) : list nat :=
  match tr with
  | [] => []
  | e :: tr' =>
      match stage e with
      | Some n => n :: stages tr'
      | None => stages tr'
      end
  end.

(** Strictly ascending, as a check. *)
Fixpoint ascending (l : list nat) : bool :=
  match l with
  | a :: (b :: _) as l' => (a <? b)%nat && ascending l'
  | _ => true
  end.

(** The error a call before the response ended with, if it failed. *)
Definition failure (e : Event) : option error :=
  match e with
  | EvProcessRequest _ (Err err) => Some err
  | EvSign _ (Err err) => Some err
  | EvBundle _ _ _ _ (Err err) => Some err
  | EvOCSPSign _ (Err err) => Some err
  | EvParseResponse _ _ (Err err) => Some err
  | EvInsertOCSP _ (Some err) => Some err
  | _ => None
  end.

Definition is_upper_hex (c : ascii) : bool :=
  let n := N_of_ascii c in
  ((48 <=? n)%N && (n <=? 57)%N) || ((65 <=? n)%N && (n <=? 70)%N).

Fixpoint all_chars (p : ascii -> bool) (s : string) : bool :=
  match s with
  | EmptyString => true
  | String c s' => p c && all_chars p s'
  end.

(** ** Package [dbmetrics] *)

Module sql.
(** [sql.DBStats]; [WaitDuration] is a [time.Duration], in nanoseconds. *)
Record DBStats : Type := mkDBStats {
  MaxOpenConnections : Z;
  OpenConnections : Z;
  InUse : Z;
  Idle : Z;
  WaitCount : Z;
  WaitDuration : Z;
  MaxIdleClosed : Z;
  MaxLifetimeClosed : Z
}.
End sql.

Module prometheus.

(** A [prometheus.Desc], by the arguments of [NewDesc]; [Labels] is a
    [map[string]string]. *)
Record Desc : Type := NewDesc {
  fqName : string;
  help : string;
  variableLabels : list string;
  constLabels : gmap string string
}.

Inductive ValueType : Type := CounterValue | GaugeValue | UntypedValue.

(** The [float64] values a collector reports, by where they come from:
    the conversion of an integer, or the seconds of a duration. *)
Inductive float64 : Type :=
| float64_of_int (n : Z)
| Duration_Seconds (d : Z).

(** A constant metric, by the arguments of [MustNewConstMetric]. *)
Record Metric : Type := MustNewConstMetric {
  desc : Desc;
  valueType : ValueType;
  value : float64
}.

End prometheus.

Module dbmetrics.

Section Collector.
Context {World : Type}.

(** [Statser] is an interface that wraps the [Stats] method. *)
Record Statser : Type := mkStatser {
  Stats : World -> sql.DBStats * World
}.

(** [StatsCollector] implements the [prometheus.Collector] interface. *)
Record StatsCollector : Type := mkStatsCollector {
  s : Statser;
  (* descriptions of exported metrics *)
  maxOpenDesc : prometheus.Desc;
  openDesc : prometheus.Desc;
  inUseDesc : prometheus.Desc;
  idleDesc : prometheus.Desc;
  waitedForDesc : prometheus.Desc;
  blockedSecondsDesc : prometheus.Desc;
  closedMaxIdleDesc : prometheus.Desc;
  closedMaxLifetimeDesc : prometheus.Desc
}.

Definition NewStatsCollector (s : Statser) (dbName : string)
  : StatsCollector :=
  let labels : gmap string string := {[ "db_name" := dbName ]} in
  mkStatsCollector s
    (prometheus.NewDesc
       "db_max_open_connections"
       "Maximum number of open connections to the database"
       [] labels)
    (prometheus.NewDesc
       "db_open_connections"
       "Number of established connections to the database"
       [] labels)
    (prometheus.NewDesc
       "db_in_use_connections"
       "Number of connections currently in use"
       [] labels)
    (prometheus.NewDesc
       "db_idle_connections"
       "Number of idle connections"
       [] labels)
    (prometheus.NewDesc
       "db_connections_waited_for"
       "Total number of connections waited for"
       [] labels)
    (prometheus.NewDesc
       "db_connections_blocked_seconds"
       "Total time blocked waiting for a new connection"
       [] labels)
    (prometheus.NewDesc
       "db_connections_closed_max_idle"
       "Total number of connections closed due to SetMaxIdleConns"
       [] labels)
    (prometheus.NewDesc
       "db_connections_closed_max_lifetime"
       "Total number of connections closed due to SetConnMaxLifetime"
       [] labels).

(** [Describe] implements the [prometheus.Collector] interface.  The
    result is what is sent on the channel, in the order of the sends. *)
Definition Describe (c : StatsCollector) : list prometheus.Desc :=
  [ maxOpenDesc c;
    openDesc c;
    inUseDesc c;
    idleDesc c;
    waitedForDesc c;
    blockedSecondsDesc c;
    closedMaxIdleDesc c;
    closedMaxLifetimeDesc c ].

(** [Collect] implements the [prometheus.Collector] interface.  The
    result is what is sent on the channel, in the order of the sends. *)
Definition Collect (c : StatsCollector) (wd : World)
  : list prometheus.Metric * World :=
  let '(stats, wd') := Stats (s c) wd in
  ([ prometheus.MustNewConstMetric
       (maxOpenDesc c)
       prometheus.GaugeValue
       (prometheus.float64_of_int (sql.MaxOpenConnections stats));
     prometheus.MustNewConstMetric
       (openDesc c)
       prometheus.GaugeValue
       (prometheus.float64_of_int (sql.OpenConnections stats));
     prometheus.MustNewConstMetric
       (inUseDesc c)
       prometheus.GaugeValue
       (prometheus.float64_of_int (sql.InUse stats));
     prometheus.MustNewConstMetric
       (idleDesc c)
       prometheus.GaugeValue
       (prometheus.float64_of_int (sql.Idle stats));
     prometheus.MustNewConstMetric
       (waitedForDesc c)
       prometheus.CounterValue
       (prometheus.float64_of_int (sql.WaitCount stats));
     prometheus.MustNewConstMetric
       (blockedSecondsDesc c)
       prometheus.CounterValue
       (prometheus.Duration_Seconds (sql.WaitDuration stats));
     prometheus.MustNewConstMetric
       (closedMaxIdleDesc c)
       prometheus.CounterValue
       (prometheus.float64_of_int (sql.MaxIdleClosed stats));
     prometheus.MustNewConstMetric
       (closedMaxLifetimeDesc c)
       prometheus.CounterValue
       (prometheus.float64_of_int (sql.MaxLifetimeClosed stats)) ],
   wd').

End Collector.

End dbmetrics.

(** ** Test doubles

    A small library and collaborators to run the handler on.  The world
    is the content of the certificate store.  The first byte of a body
    selects the request ([n]: no request section, [a]: a CA section, [e]:
    no hosts, anything else: two hosts), the second one the [bundle]
    flag; the first byte of a PEM text selects the block type. *)

Module Doubles.

Definition b (s : string) : bytes := list_byte_of_string s.

Definition decode (in_ : bytes) : option pem.Block * bytes :=
  match in_ with
  | [] => (None, [])
  | c :: rest =>
      let ty := if Byte.eqb c "R"%byte then "CERTIFICATE REQUEST"
                else if Byte.eqb c "C"%byte then "CERTIFICATE"
                else "PRIVATE KEY" in
      (Some (pem.mkBlock ty [] rest), [])
  end.

Definition parseCSR (der : bytes) : result x509.CertificateRequest :=
  match der with
  | [] => Err (errors.errorString "asn1: syntax error")
  | _ => Ok (x509.mkCertificateRequest der)
  end.

Definition parseCert (der : bytes) : result x509.Certificate :=
  match der with
  | [] => Err (errors.errorString "x509: malformed certificate")
  | _ => Ok (x509.mkCertificate der (Z.of_nat (length der)) (b "k"))
  end.

Definition digest (n : nat) (data : bytes) : bytes :=
  firstn n (data ++ repeat Byte.x00 n).

Definition subject (hosts : list string) (ca : option csr.CAConfig)
  : csr.CertificateRequest :=
  csr.mkCertificateRequest "example" [] hosts None ca.

Definition unmarshal (body : bytes) (into : newCertRequest)
  : result newCertRequest :=
  match body with
  | [] => Err (errors.errorString "unexpected end of JSON input")
  | c :: rest =>
      let flag := match rest with
                  | f :: _ => Byte.eqb f "1"%byte
                  | [] => Bundle into
                  end in
      let req :=
        if Byte.eqb c "n"%byte then None
        else if Byte.eqb c "a"%byte then
          Some (subject ["example.com"] (Some (csr.mkCAConfig 1 "8760h")))
        else if Byte.eqb c "e"%byte then Some (subject [] None)
        else Some (subject ["example.com"; "www.example.com"] None) in
      Ok (mknewCertRequest req "default" "primary" flag)
  end.

Definition parseResponse (resp : bytes) (issuer : option x509.Certificate)
  : result stdocsp.Response :=
  match resp with
  | [] => Err (errors.errorString "ocsp: empty response")
  | _ => Ok (stdocsp.mkResponse (time.mkTime 50 0) (time.mkTime 100 0))
  end.

#[export] Instance lib : Lib := {|
  pem_Decode := decode;
  x509_ParseCertificateRequest := parseCSR;
  x509_ParseCertificate := parseCert;
  md5_Sum := digest 16;
  sha1_Sum := digest 20;
  sha256_Sum256 := digest 32;
  json_Unmarshal := unmarshal;
  stdocsp_ParseResponse := parseResponse;
  csr_New := subject [] None;
  errors_PolicyError := 5000;
  errors_InvalidRequest := 300;
  errors_New := fun c r => errors.mkError (c + r) "invalid request"
|}.

Definition World : Type := list certdb.OCSPRecord.

Definition generator : csr.Generator World :=
  csr.mkGenerator World (fun req wd => ((Ok (b "Rcsr", b "key"), req), wd)).

Definition store : certdb.Accessor World :=
  certdb.mkAccessor World (fun rec wd => (None, rec :: wd)).

Definition brokenStore : certdb.Accessor World :=
  certdb.mkAccessor World
    (fun rec wd => (Some (errors.errorString "database is down"), wd)).

(** A signer answering [cert], with the store [db]. *)
Definition signerWith (cert : bytes) (db : option (certdb.Accessor World))
  : signer.Signer World :=
  signer.mkSigner World (fun req wd => (Ok cert, wd)) (fun wd => (db, wd)).

Definition leaf : x509.Certificate := x509.mkCertificate (b "leaf") 4 (b "k").

(** A bundle that expires at second 200. *)
Definition theBundle : bundler.Bundle :=
  bundler.mkBundle leaf [] (time.mkTime 200 0).

Definition bundlerWith (ret : option bundler.Bundle) : bundler.Bundler World :=
  bundler.mkBundler World (fun certs key flavor password wd => (Ok ret, wd)).

Definition ocspSigner : ocsp.Signer World :=
  ocsp.mkSigner World (fun req wd => (Ok (b "good"), wd)).

(** No OCSP signer configured. *)
Definition plain : Handler :=
  mkHandler generator (bundlerWith (Some theBundle))
    (signerWith (b "Ccert") None) None.

(** OCSP signer and a working store. *)
Definition attesting : Handler :=
  mkHandler generator (bundlerWith (Some theBundle))
    (signerWith (b "Ccert") (Some store)) (Some ocspSigner).

(** OCSP signer and a store that refuses every insertion. *)
Definition storeDown : Handler :=
  mkHandler generator (bundlerWith (Some theBundle))
    (signerWith (b "Ccert") (Some brokenStore)) (Some ocspSigner).

(** The bundler finds nothing and reports no error. *)
Definition noBundle : Handler :=
  mkHandler generator (bundlerWith None) (signerWith (b "Ccert") None) None.

(** The signer answers with something that is no certificate. *)
Definition badSigner : Handler :=
  mkHandler generator (bundlerWith (Some theBundle))
    (signerWith (b "Xgarbage") None) None.

Definition writer : http.ResponseWriter World Result :=
  fun resp wd => (None, wd).

Definition request (body : string) : http.Request :=
  http.mkRequest (Ok (b body)).

(** What the doubles make of a request that is issued: the record put
    into the store and the result sent. *)
Definition theRecord : certdb.OCSPRecord :=
  certdb.mkOCSPRecord "4" "6b" "good" (time.mkTime 100 0).

Definition theParsed : stdocsp.Response :=
  stdocsp.mkResponse (time.mkTime 50 0) (time.mkTime 100 0).

Definition theResult : Result :=
  {[ "private_key" := VString "key";
     "certificate_request" := VString "Rcsr";
     "certificate" := VString "Ccert";
     "serial_number" := VString "4";
     "expiration" := VInt64 200;
     "sums" := VSums {[ "certificate_request" := fst (computeSum (b "Rcsr"));
                        "certificate" := fst (computeSum (b "Ccert")) ]} ]}.

Definition theSignRequest : signer.SignRequest :=
  signer.mkSignRequest "Rcsr" "default" "primary".

(** What [unmarshal] makes of a body for a request with the hosts
    [hosts]. *)
Definition decoded (hosts : list string) (ca : option csr.CAConfig)
    (flag : bool) : newCertRequest :=
  mknewCertRequest (Some (subject hosts ca)) "default" "primary" flag.

(** OCSP signer, and a signer without store. *)
Definition noStore : Handler :=
  mkHandler generator (bundlerWith (Some theBundle))
    (signerWith (b "Ccert") None) (Some ocspSigner).

(** A bundler can be opened on any CA bundle file with a name. *)
#[export] Instance build : Build World := {|
  bundler_NewBundler := fun ca int wd =>
    if String.eqb ca EmptyString
    then (Err (errors.errorString "no CA bundle"), wd)
    else (Ok (bundlerWith (Some theBundle)), wd);
  csr_Generator := fun validator => generator
|}.

Definition validator : Validator := fun req => (None, req).

(** A decoder that ends the first block at the first dot: what follows
    the dot is the rest of the input. *)
Fixpoint untilDot (in_ : bytes) : bytes * bytes :=
  match in_ with
  | [] => ([], [])
  | c :: rest =>
      if Byte.eqb c "."%byte then ([], rest)
      else let '(block, rest') := untilDot rest in (c :: block, rest')
  end.

Definition decodeFirst (in_ : bytes) : option pem.Block * bytes :=
  let '(block, rest) := untilDot in_ in (fst (decode block), rest).

Definition libFirst : Lib := {|
  pem_Decode := decodeFirst;
  x509_ParseCertificateRequest := parseCSR;
  x509_ParseCertificate := parseCert;
  md5_Sum := digest 16;
  sha1_Sum := digest 20;
  sha256_Sum256 := digest 32;
  json_Unmarshal := unmarshal;
  stdocsp_ParseResponse := parseResponse;
  csr_New := subject [] None;
  errors_PolicyError := 5000;
  errors_InvalidRequest := 300;
  errors_New := fun c r => errors.mkError (c + r) "invalid request"
|}.

End Doubles.

(** ** Reasoning about runs *)

Section Inversion.
Context {World : Type}.

(** A sequence ends where its first part returns or panics, and goes on
    with the second part otherwise. *)
Lemma bind_run {A B} (m : M (World := World) A) (k : A -> M B) wd s wd' tr :
  bind m k wd = (s, wd', tr) ->
  (exists a wd1 t1 t2,
      m wd = (Next a, wd1, t1) /\ k a wd1 = (s, wd', t2) /\ tr = t1 ++ t2)
  \/ (exists e, m wd = (Return e, wd', tr) /\ s = Return e)
  \/ (m wd = (Panic, wd', tr) /\ s = Panic).
Proof.
  unfold bind. destruct (m wd) as [[[a|e|] wd1] t1].
  - destruct (k a wd1) as [[s2 wd2] t2] eqn:Hk. intros [= <- <- <-].
    left. exists a, wd1, t1, t2. auto.
  - intros [= <- <- <-]. right; left. eauto.
  - intros [= <- <- <-]. right; right. auto.
Qed.

End Inversion.

(** [exec H] follows a run [H : m wd = (s, wd', tr)] statement by
    statement, with one goal for each way through [m]. *)
Ltac exec H :=
  lazymatch type of H with
  | bind ?m ?k ?wd = _ =>
      let a := fresh "a" in let wd1 := fresh "wd" in
      let t1 := fresh "t" in let t2 := fresh "t" in
      let e := fresh "e" in
      let Hm := fresh "Hm" in let Hk := fresh "Hk" in
      let Ht := fresh "Ht" in let Hs := fresh "Hs" in
      apply bind_run in H;
      destruct H as [(a & wd1 & t1 & t2 & Hm & Hk & Ht)
                    | [(e & Hm & Hs) | [Hm Hs]]];
      [ exec Hm; cbv beta in Hk; exec Hk
      | first [discriminate Hs | exec Hm]
      | first [discriminate Hs | exec Hm] ]
  | emit _ _ = _ => unfold emit in H; simplify_eq
  | log_Info _ _ = _ => unfold log_Info in H; exec H
  | log_Warning _ _ = _ => unfold log_Warning in H; exec H
  | log_Warningf _ _ _ = _ => unfold log_Warningf in H; exec H
  | log_Critical _ _ _ = _ => unfold log_Critical in H; exec H
  | ret _ _ = _ => unfold ret in H; simplify_eq
  | return_ _ _ = _ => unfold return_ in H; simplify_eq
  | panic _ = _ => unfold panic in H; simplify_eq
  | observe _ _ _ = _ => unfold observe in H; simplify_eq
  | call ?f _ ?wd = _ =>
      unfold call in H;
      let v := fresh "v" in let wd1 := fresh "wd" in
      let E := fresh "Ecall" in
      destruct (f wd) as [v wd1] eqn:E; simplify_eq;
      try match type of E with
          | _ = (?x, _) =>
              is_var x;
              lazymatch type of x with
              | (result _ * _)%type => destruct x as [? ?]; cbn [fst snd] in *
              end
          end
  | or_return ?r _ _ = _ =>
      unfold or_return in H;
      let E := fresh "E" in destruct r eqn:E; exec H
  | when (is_nil ?p) _ _ = _ =>
      unfold when in H;
      let E := fresh "E" in
      destruct p eqn:E; cbn [is_nil negb] in H; exec H
  | when (negb (is_nil ?p)) _ _ = _ =>
      unfold when in H;
      let E := fresh "E" in
      destruct p eqn:E; cbn [is_nil negb] in H; exec H
  | deref ?p _ = _ =>
      unfold deref in H;
      let E := fresh "E" in destruct p eqn:E; exec H
  | api_SendResponse _ _ _ = _ =>
      unfold api_SendResponse in H; cbv zeta in H; exec H
  | api_SendResponseWithMessage _ _ _ _ _ = _ =>
      unfold api_SendResponseWithMessage in H; cbv zeta in H; exec H
  | (let '(_, _) := ?x in _) _ = _ =>
      let E := fresh "E" in destruct x eqn:E; exec H
  | (if (length ?l =? 0)%nat then _ else _) _ = _ =>
      let E := fresh "E" in
      destruct l eqn:E; cbn [length Nat.eqb] in H; exec H
  | (match ?x with _ => _ end) _ = _ =>
      let E := fresh "E" in destruct x eqn:E; exec H
  | match ?x with _ => _ end = _ =>
      let E := fresh "E" in destruct x eqn:E; exec H
  | _ => idtac
  end.

(** All the ways through [Handle], for a run [H] of it. *)
Ltac exec_Handle H :=
  unfold Handle, io_ReadAll in H; cbv zeta in H; exec H;
  cbn [app is_nil] in *.

(** Facts about the same call are brought together. *)
Ltac same_calls :=
  repeat match goal with
  | H1 : ?x = _, H2 : ?x = _ |- _ => rewrite H1 in H2; simplify_eq
  end.

(** The same, with the pairs that calls return taken apart. *)
Ltac settle :=
  repeat progress (cbn [fst snd] in *; simplify_eq; same_calls).

(** Membership in a trace that is spelt out. *)
Ltac split_in H :=
  lazymatch type of H with
  | _ \/ _ => destruct H as [H | H]; [ | split_in H ]
  | _ => idtac
  end.
Ltac in_trace H :=
  cbn [In app] in H; split_in H;
  try contradiction; try discriminate H; simplify_eq.

(** ** The claims *)

(** C6. If the bundler reports no error but returns a nil bundle, the
    handler fails with the error "failed to bundle certificate"; nothing
    is sent to the caller and no call of the revocation stage is made. *)
Theorem nil_bundle_is_a_failure {World} `{Lib}
    (h : Handler (World := World)) w r wd s wd' tr certs key flavor password :
  Handle h w r wd = (s, wd', tr) ->
  In (EvBundle certs key flavor password (Ok None)) tr ->
  s = Return (Some (errors.errorString "failed to bundle certificate"))
  /\ (forall e, In e tr -> is_response e = false)
  /\ (forall e, In e tr -> is_revocation_call e = false).
Proof.
  intros Hrun Hin. exec_Handle Hrun; try solve [in_trace Hin].
  split; [reflexivity|].
  split; intros e He; in_trace He; reflexivity.
Qed.

(** C2. If the insertion of the OCSP record into the certificate store
    returns an error, the handler returns that error and sends nothing to
    the caller, although an OCSP signer is configured and the signer had
    already issued the certificate. *)
Theorem store_failure_fails_the_request {World} `{Lib}
    (h : Handler (World := World)) w r wd s wd' tr rec err :
  Handle h w r wd = (s, wd', tr) ->
  In (EvInsertOCSP rec (Some err)) tr ->
  s = Return (Some err)
  /\ ocspSigner h <> None
  /\ (exists req certBytes, In (EvSign req (Ok certBytes)) tr)
  /\ (forall e, In e tr -> is_response e = false).
Proof.
  intros Hrun Hin. exec_Handle Hrun; try solve [in_trace Hin].
  in_trace Hin.
  split; [reflexivity|]. split; [congruence|]. split.
  - eexists _, _. cbn [In]. eauto 10.
  - intros e He; in_trace He; reflexivity.
Qed.

(** C7. A handler without OCSP signer makes no call of the revocation
    stage (no OCSP signing, no parsing of an OCSP response, no access to
    the certificate store), and the [expiration] of a response it sends
    is the expiry of the bundle, in unix seconds. *)
Theorem no_revocation_without_ocsp_signer {World} `{Lib}
    (h : Handler (World := World)) w r wd s wd' tr :
  ocspSigner h = None ->
  Handle h w r wd = (s, wd', tr) ->
  (forall e, In e tr -> is_revocation_call e = false)
  /\ (forall resp ret, In (EvSendResponse resp ret) tr ->
      exists certs key flavor password bundle,
        In (EvBundle certs key flavor password (Ok (Some bundle))) tr
        /\ api.Result resp !! "expiration"
           = Some (VInt64 (time.Unix (bundler.Expires bundle)))).
Proof.
  intros Hnone Hrun. exec_Handle Hrun; try congruence.
  all: split; [intros e He; in_trace He; reflexivity|].
  all: intros resp ret Hin; in_trace Hin.
  all: eexists _, _, _, _, _; split; [cbn [In]; eauto 10 | reflexivity].
Qed.

(** C1, as the code has it.  When an OCSP signer is configured and OCSP
    signing, parsing and the insertion into the store all succeed, the
    [expiration] of the response is still the expiry of the bundle, in
    unix seconds; the next update of the parsed OCSP response is the
    expiry of the record that was stored. *)
Theorem expiration_is_bundle_expiry {World} `{Lib}
    (h : Handler (World := World)) w r wd s wd' tr
    body issuer parsed rec resp ret :
  ocspSigner h <> None ->
  Handle h w r wd = (s, wd', tr) ->
  In (EvParseResponse body issuer (Ok parsed)) tr ->
  In (EvInsertOCSP rec None) tr ->
  In (EvSendResponse resp ret) tr ->
  (exists certs key flavor password bundle,
      In (EvBundle certs key flavor password (Ok (Some bundle))) tr
      /\ api.Result resp !! "expiration"
         = Some (VInt64 (time.Unix (bundler.Expires bundle))))
  /\ certdb.Expiry rec = stdocsp.NextUpdate parsed.
Proof.
  intros Hsome Hrun Hparse Hins Hin.
  exec_Handle Hrun; try solve [in_trace Hin].
  all: in_trace Hin; in_trace Hparse; in_trace Hins.
  all: split; [|reflexivity].
  all: eexists _, _, _, _, _; split; [cbn [In]; eauto 10 | reflexivity].
Qed.

(** C3. A request that goes through the whole pipeline (it is decoded,
    has no CA section, and generation, signing, the two digests, bundling,
    and the revocation stage if there is one, succeed) is answered: the
    run is the calls of the pipeline and then the response, which is a
    success response without errors.  The response carries the advisory
    (the message [CSRNoHostMessage] with the code of the policy error
    [InvalidRequest]) when the host list of the request is empty, and no
    message at all when it is not.  The host list is the one of the
    request when the response is assembled: the generator had a pointer
    to the request.  Conversely, a run that returns [nil] has sent a
    response, and every response sent is of that kind. *)
Theorem advisory_iff_no_hosts {World} `{Lib}
    (h : Handler (World := World)) w r wd n req :
  decodes_to r n ->
  Request n = Some req ->
  let after := snd (fst (csr.ProcessRequest (csrGen h) req wd)) in
  (forall csr key wd1 certBytes wd2 reqSum certSum bundle wd3 wd4 evs
          ret wd5,
      csr.CA req = None ->
      csr.ProcessRequest (csrGen h) req wd = ((Ok (csr, key), after), wd1) ->
      let signReq := signer.mkSignRequest
                       (string_of_list_byte csr) (Profile n) (Label n) in
      signer.Sign (signer h) signReq wd1 = (Ok certBytes, wd2) ->
      computeSum csr = (reqSum, None) ->
      computeSum certBytes = (certSum, None) ->
      bundler.BundleFromPEMorDER (bundler h)
        certBytes None bundler.Optimal EmptyString wd2
      = (Ok (Some bundle), wd3) ->
      revocation_succeeds h bundle wd3 wd4 evs ->
      let result : Result :=
        {[ "private_key" := VString (string_of_list_byte key);
           "certificate_request" := VString (string_of_list_byte csr);
           "certificate" := VString (string_of_list_byte certBytes);
           "serial_number" :=
             VString (big_String (x509.SerialNumber (bundler.Cert bundle)));
           "expiration" := VInt64 (time.Unix (bundler.Expires bundle));
           "sums" := VSums {[ "certificate_request" := reqSum;
                              "certificate" := certSum ]} ]} in
      let resp :=
        if (length (csr.Hosts after) =? 0)%nat
        then api.NewSuccessResponseWithMessage result CSRNoHostMessage
               (errors.ErrorCode
                  (errors_New errors_PolicyError errors_InvalidRequest))
        else api.NewSuccessResponse result in
      w resp wd4 = (ret, wd5) ->
      Handle h w r wd
      = (Return ret, wd5,
         [EvLog log.Info "request for csr (with ocsp support)" None;
          EvProcessRequest req (Ok (csr, key));
          EvSign signReq (Ok certBytes);
          EvBundle certBytes None bundler.Optimal EmptyString
            (Ok (Some bundle))]
         ++ evs ++ [EvSendResponse resp ret])
      /\ api.Success resp = true
      /\ api.Errors resp = []
      /\ (csr.Hosts after = [] -> api.Messages resp = [advisory])
      /\ (csr.Hosts after <> [] -> api.Messages resp = []))
  /\ (forall s wd' tr,
      Handle h w r wd = (s, wd', tr) ->
      (s = Return None -> exists resp, In (EvSendResponse resp None) tr)
      /\ (forall resp ret, In (EvSendResponse resp ret) tr ->
          s = Return ret
          /\ api.Success resp = true
          /\ api.Errors resp = []
          /\ (csr.Hosts after = [] -> api.Messages resp = [advisory])
          /\ (csr.Hosts after <> [] -> api.Messages resp = []))).
Proof.
  intros (body & Hbody & Hjson) Hreq after. unfold emptyRequest in Hjson.
  split.
  - intros csr key wd1 certBytes wd2 reqSum certSum bundle wd3 wd4 evs
      ret wd5 Hca Hgen signReq Hsign HreqSum HcertSum Hbundle Hrev
      result resp Hw.
    assert (Hafter : after = snd (fst (csr.ProcessRequest (csrGen h) req wd)))
      by reflexivity.
    clearbody after. subst signReq.
    assert (Hshape :
      api.Success resp = true /\ api.Errors resp = []
      /\ (csr.Hosts after = [] -> api.Messages resp = [advisory])
      /\ (csr.Hosts after <> [] -> api.Messages resp = [])).
    { subst resp. destruct (csr.Hosts after); cbn [length Nat.eqb].
      - repeat split; congruence.
      - repeat split; congruence. }
    split; [|exact Hshape]. clear Hshape Hafter.
    destruct (Handle h w r wd) as [[s wd'] tr] eqn:Hrun.
    unfold revocation_succeeds in Hrev.
    exec_Handle Hrun; settle;
      try match goal with
          | E : ocspSigner h = _ |- _ => rewrite E in Hrev
          end;
      cbv zeta in Hrev;
      try (destruct Hrev as (? & ? & ? & ? & ? & ? & ? & ? & ? & ?));
      try (destruct Hrev as [? ?]);
      subst; settle.
    all: subst resp result;
      repeat match goal with
             | E : csr.Hosts _ = _ |- _ => rewrite E in *
             end; cbn [length Nat.eqb] in *; settle; reflexivity.
  - intros s wd' tr Hrun. subst after.
    exec_Handle Hrun; settle.
    all: try match goal with
             | E : csr.ProcessRequest _ _ _ = _ |- _ =>
                 rewrite E; cbn [fst snd]
             end.
    all: split;
      [ intros Hs; try discriminate Hs; simplify_eq;
        eexists; cbn [In]; eauto 10
      | intros resp ret Hin; in_trace Hin ].
    all: repeat split; try reflexivity; congruence.
Qed.

(** C10. If the signer succeeds with bytes of which no digest can be
    computed, the handler returns a bad request (status 400) and sends
    nothing; the error it wraps is the one of the certificate, unless the
    digest of the CSR failed before it. *)
Theorem unparseable_certificate_is_a_bad_request {World} `{Lib}
    (h : Handler (World := World)) w r wd s wd' tr req certBytes err :
  Handle h w r wd = (s, wd', tr) ->
  In (EvSign req (Ok certBytes)) tr ->
  snd (computeSum certBytes) = Some err ->
  (exists e,
      s = Return (Some (errors.NewBadRequest e))
      /\ errors.StatusCode (errors.NewBadRequest e) = Some 400
      /\ (e = err
          \/ exists creq csr key,
               In (EvProcessRequest creq (Ok (csr, key))) tr
               /\ snd (computeSum csr) = Some e))
  /\ (forall e, In e tr -> is_response e = false).
Proof.
  intros Hrun Hin Herr.
  exec_Handle Hrun; try solve [in_trace Hin].
  all: in_trace Hin;
    repeat match goal with
    | E : computeSum ?x = _, H : context [computeSum ?x] |- _ =>
        rewrite E in H; cbn [snd] in H
    end; simplify_eq.
  all: (split; [|intros e0 He; in_trace He; reflexivity]).
  all: eexists; split; [reflexivity|]; split; [reflexivity|].
  all: first
    [ now left
    | right;
      match goal with v : (bytes * bytes)%type |- _ => destruct v as [? ?] end;
      eexists _, _, _; split; [cbn [In]; eauto 10|]; cbn [fst] in *;
      match goal with
      | E : computeSum ?x = _ |- snd (computeSum ?x) = _ => now rewrite E
      end ].
Qed.

(** C4. A decoded request with a CA section is answered with the bad
    request (status 400) "ca section only permitted in initca"; the run
    only writes two log lines, and calls neither the CSR generator nor
    the signer. *)
Theorem CA_section_is_rejected {World} `{Lib}
    (h : Handler (World := World)) w r wd n req ca :
  decodes_to r n ->
  Request n = Some req ->
  csr.CA req = Some ca ->
  let rejection :=
    errors.NewBadRequestString "ca section only permitted in initca" in
  let tr := [EvLog log.Info "request for csr (with ocsp support)" None;
             EvLog log.Warning "request received with CA section" None] in
  Handle h w r wd = (Return (Some rejection), wd, tr)
  /\ errors.is_client_error rejection = true
  /\ (forall e, In e tr -> is_issuance_call e = false).
Proof.
  intros (body & Hbody & Hjson) Hreq Hca rejection tr.
  unfold emptyRequest in Hjson.
  split; [|split; [reflexivity|]].
  - destruct (Handle h w r wd) as [[s wd'] tr'] eqn:Hrun.
    exec_Handle Hrun; same_calls; reflexivity.
  - intros e He; unfold tr in He; in_trace He; reflexivity.
Qed.

(** The body is read and decoded before anything else: what a run does
    when the request decodes to [n]. *)
Lemma bind_emit_run {World B} (e : Event)
    (k : unit -> M (World := World) B) wd :
  bind (emit e) k wd
  = match k tt wd with (s, wd', tr) => (s, wd', e :: tr) end.
Proof. unfold bind, emit. now destruct (k tt wd) as [[s wd'] tr]. Qed.

Lemma bind_ret_run {World A B} (a : A) (k : A -> M (World := World) B) wd :
  bind (ret a) k wd = k a wd.
Proof. unfold bind, ret. now destruct (k a wd) as [[s wd'] tr]. Qed.

(** C9. Two requests that decode to the same request section, profile
    and label are handled alike, whatever their [bundle] flags: the same
    calls with the same results, the same world, the same outcome. *)
Theorem bundle_flag_is_not_read {World} `{Lib}
    (h : Handler (World := World)) w r1 r2 wd n1 n2 :
  decodes_to r1 n1 ->
  decodes_to r2 n2 ->
  Request n1 = Request n2 ->
  Profile n1 = Profile n2 ->
  Label n1 = Label n2 ->
  Handle h w r1 wd = Handle h w r2 wd.
Proof.
  intros (b1 & Hb1 & Hj1) (b2 & Hb2 & Hj2) Hreq Hprofile Hlabel.
  unfold emptyRequest in Hj1, Hj2.
  unfold Handle, io_ReadAll, log_Info. cbv zeta.
  rewrite !bind_emit_run, Hb1, Hb2. cbn [or_return].
  rewrite !bind_ret_run, Hj1, Hj2. cbn [or_return].
  rewrite !bind_ret_run.
  destruct n1, n2; simpl in Hreq, Hprofile, Hlabel; subst.
  reflexivity.
Qed.

(** C5. [computeSum] fails with the bad request (status 400) "not a CSR
    or certificate" when no PEM block is decoded from the input, and with
    the same error when the block decoded has another type than
    [CERTIFICATE REQUEST] or [CERTIFICATE]; it returns digests without
    error only for a block of one of the two types. *)
Theorem computeSum_block_types `{Lib} (in_ : bytes) :
  let bad := errors.NewBadRequestString "not a CSR or certificate" in
  let none := mkSum EmptyString EmptyString EmptyString in
  (fst (pem_Decode in_) = None -> computeSum in_ = (none, Some bad))
  /\ (forall p,
        fst (pem_Decode in_) = Some p ->
        pem.Type_ p <> "CERTIFICATE REQUEST" ->
        pem.Type_ p <> "CERTIFICATE" ->
        computeSum in_ = (none, Some bad))
  /\ errors.StatusCode bad = Some 400
  /\ (forall sum,
        computeSum in_ = (sum, None) ->
        exists p,
          fst (pem_Decode in_) = Some p
          /\ (pem.Type_ p = "CERTIFICATE REQUEST"
              \/ pem.Type_ p = "CERTIFICATE")).
Proof.
  intros bad none. unfold computeSum.
  destruct (pem_Decode in_) as [[p|] rest]; cbn [fst].
  - split; [discriminate|]. split; [|split; [reflexivity|]].
    + intros p' [= <-] Hcsr Hcert.
      apply String.eqb_neq in Hcsr, Hcert. now rewrite Hcsr, Hcert.
    + intros sum Hsum. exists p. split; [reflexivity|].
      destruct (String.eqb_spec (pem.Type_ p) "CERTIFICATE REQUEST");
        [now left|].
      destruct (String.eqb_spec (pem.Type_ p) "CERTIFICATE");
        [now right|].
      discriminate Hsum.
  - split; [reflexivity|]. split; [discriminate|].
    split; [reflexivity|]. discriminate.
Qed.

(** ** The claims on the test doubles *)

Section OnDoubles.
#[local] Existing Instance Doubles.lib.

(** C6 on a bundler that finds nothing. *)
Lemma nil_bundle_is_a_failure_witness :
  let run :=
    Handle Doubles.noBundle Doubles.writer (Doubles.request "h0") [] in
  run.1.1 = Return (Some (errors.errorString "failed to bundle certificate"))
  /\ (forall e, In e run.2 -> is_response e = false)
  /\ (forall e, In e run.2 -> is_revocation_call e = false).
Proof.
  intros run.
  apply (nil_bundle_is_a_failure Doubles.noBundle Doubles.writer
           (Doubles.request "h0") [] run.1.1 run.1.2 run.2
           (Doubles.b "Ccert") None bundler.Optimal EmptyString).
  - vm_compute. reflexivity.
  - vm_compute. auto 10.
Defined.

(** C2 on a store that refuses the record. *)
Lemma store_failure_fails_the_request_witness :
  let run :=
    Handle Doubles.storeDown Doubles.writer (Doubles.request "h0") [] in
  run.1.1 = Return (Some (errors.errorString "database is down"))
  /\ ocspSigner Doubles.storeDown <> None
  /\ (exists req certBytes, In (EvSign req (Ok certBytes)) run.2)
  /\ (forall e, In e run.2 -> is_response e = false).
Proof.
  intros run.
  apply (store_failure_fails_the_request Doubles.storeDown Doubles.writer
           (Doubles.request "h0") [] run.1.1 run.1.2 run.2
           Doubles.theRecord (errors.errorString "database is down")).
  - vm_compute. reflexivity.
  - vm_compute. auto 10.
Defined.

(** C7 on a handler without OCSP signer. *)
Lemma no_revocation_without_ocsp_signer_witness :
  let run := Handle Doubles.plain Doubles.writer (Doubles.request "h0") [] in
  (forall e, In e run.2 -> is_revocation_call e = false)
  /\ (forall resp ret, In (EvSendResponse resp ret) run.2 ->
      exists certs key flavor password bundle,
        In (EvBundle certs key flavor password (Ok (Some bundle))) run.2
        /\ api.Result resp !! "expiration"
           = Some (VInt64 (time.Unix (bundler.Expires bundle)))).
Proof.
  intros run.
  apply (no_revocation_without_ocsp_signer Doubles.plain Doubles.writer
           (Doubles.request "h0") [] run.1.1 run.1.2 run.2).
  - reflexivity.
  - vm_compute. reflexivity.
Defined.

(** C1 as stated fails on a handler with OCSP signer and store: the OCSP
    response parsed has its next update at second 100, the record is
    stored, and the response sent expires at second 200, with the
    bundle. *)
Lemma expiration_is_not_next_update :
  ~ expiration_is_next_update
      Doubles.attesting Doubles.writer (Doubles.request "h0") [].
Proof.
  intros Hc.
  pose (run :=
    Handle Doubles.attesting Doubles.writer (Doubles.request "h0") []).
  assert (Hx := Hc run.1.1 run.1.2 run.2 (Doubles.b "good") None
                  Doubles.theParsed Doubles.theRecord
                  (api.NewSuccessResponse Doubles.theResult) None).
  assert (Hy : api.Result (api.NewSuccessResponse Doubles.theResult)
                 !! "expiration"
               = Some (VInt64
                         (time.Unix (stdocsp.NextUpdate Doubles.theParsed)))).
  { apply Hx.
    - discriminate.
    - vm_compute. reflexivity.
    - vm_compute. auto 10.
    - vm_compute. auto 10.
    - vm_compute. auto 10. }
  vm_compute in Hy. discriminate Hy.
Qed.

(** C1 as the code has it, on the same run. *)
Lemma expiration_is_bundle_expiry_witness :
  let run :=
    Handle Doubles.attesting Doubles.writer (Doubles.request "h0") [] in
  (exists certs key flavor password bundle,
      In (EvBundle certs key flavor password (Ok (Some bundle))) run.2
      /\ api.Result (api.NewSuccessResponse Doubles.theResult) !! "expiration"
         = Some (VInt64 (time.Unix (bundler.Expires bundle))))
  /\ certdb.Expiry Doubles.theRecord = stdocsp.NextUpdate Doubles.theParsed.
Proof.
  intros run.
  apply (expiration_is_bundle_expiry Doubles.attesting Doubles.writer
           (Doubles.request "h0") [] run.1.1 run.1.2 run.2
           (Doubles.b "good") None Doubles.theParsed Doubles.theRecord
           (api.NewSuccessResponse Doubles.theResult) None).
  - discriminate.
  - vm_compute. reflexivity.
  - vm_compute. auto 10.
  - vm_compute. auto 10.
  - vm_compute. auto 10.
Defined.

(** C3 on a request without hosts, with OCSP signer and store: the
    record is stored and the response, with the advisory, is sent. *)
Lemma advisory_iff_no_hosts_witness :
  let req := Doubles.subject [] None in
  let result := Doubles.theResult in
  let resp :=
    api.NewSuccessResponseWithMessage result CSRNoHostMessage 5300 in
  Handle Doubles.attesting Doubles.writer (Doubles.request "e0") []
  = (Return None, [Doubles.theRecord],
     [EvLog log.Info "request for csr (with ocsp support)" None;
      EvProcessRequest req (Ok (Doubles.b "Rcsr", Doubles.b "key"));
      EvSign Doubles.theSignRequest (Ok (Doubles.b "Ccert"));
      EvBundle (Doubles.b "Ccert") None bundler.Optimal EmptyString
        (Ok (Some Doubles.theBundle))]
     ++ [EvOCSPSign (ocsp.mkSignRequest Doubles.leaf "good")
           (Ok (Doubles.b "good"));
         EvParseResponse (Doubles.b "good") None (Ok Doubles.theParsed);
         EvGetDBAccessor false;
         EvInsertOCSP Doubles.theRecord None]
     ++ [EvSendResponse resp None])
  /\ api.Success resp = true
  /\ api.Errors resp = []
  /\ (csr.Hosts req = [] -> api.Messages resp = [advisory])
  /\ (csr.Hosts req <> [] -> api.Messages resp = []).
Proof.
  intros req result resp.
  assert (Hdec : decodes_to (Doubles.request "e0")
                   (Doubles.decoded [] None false))
    by (exists (Doubles.b "e0"); split; reflexivity).
  apply (proj1 (advisory_iff_no_hosts Doubles.attesting Doubles.writer
                  (Doubles.request "e0") []
                  (Doubles.decoded [] None false) req Hdec eq_refl)
           (Doubles.b "Rcsr") (Doubles.b "key") [] (Doubles.b "Ccert") []
           (fst (computeSum (Doubles.b "Rcsr")))
           (fst (computeSum (Doubles.b "Ccert")))
           Doubles.theBundle [] [Doubles.theRecord]
           [EvOCSPSign (ocsp.mkSignRequest Doubles.leaf "good")
              (Ok (Doubles.b "good"));
            EvParseResponse (Doubles.b "good") None (Ok Doubles.theParsed);
            EvGetDBAccessor false;
            EvInsertOCSP Doubles.theRecord None]
           None [Doubles.theRecord]).
  - reflexivity.
  - reflexivity.
  - reflexivity.
  - reflexivity.
  - reflexivity.
  - reflexivity.
  - exists (Doubles.b "good"), [], Doubles.theParsed, Doubles.store, [].
    repeat split.
  - reflexivity.
Defined.

(** C10 on a signer that answers with garbage. *)
Lemma unparseable_certificate_is_a_bad_request_witness :
  let run :=
    Handle Doubles.badSigner Doubles.writer (Doubles.request "h0") [] in
  let err := errors.NewBadRequestString "not a CSR or certificate" in
  (exists e,
      run.1.1 = Return (Some (errors.NewBadRequest e))
      /\ errors.StatusCode (errors.NewBadRequest e) = Some 400
      /\ (e = err
          \/ exists creq csr key,
               In (EvProcessRequest creq (Ok (csr, key))) run.2
               /\ snd (computeSum csr) = Some e))
  /\ (forall e, In e run.2 -> is_response e = false).
Proof.
  intros run err.
  apply (unparseable_certificate_is_a_bad_request Doubles.badSigner
           Doubles.writer (Doubles.request "h0") [] run.1.1 run.1.2 run.2
           Doubles.theSignRequest (Doubles.b "Xgarbage") err).
  - vm_compute. reflexivity.
  - vm_compute. auto 10.
  - reflexivity.
Defined.

(** C4 on a request with a CA section. *)
Lemma CA_section_is_rejected_witness :
  let rejection :=
    errors.NewBadRequestString "ca section only permitted in initca" in
  let tr := [EvLog log.Info "request for csr (with ocsp support)" None;
             EvLog log.Warning "request received with CA section" None] in
  Handle Doubles.attesting Doubles.writer (Doubles.request "a0") []
  = (Return (Some rejection), [], tr)
  /\ errors.is_client_error rejection = true
  /\ (forall e, In e tr -> is_issuance_call e = false).
Proof.
  apply (CA_section_is_rejected Doubles.attesting Doubles.writer
           (Doubles.request "a0") []
           (Doubles.decoded ["example.com"]
              (Some (csr.mkCAConfig 1 "8760h")) false)
           (Doubles.subject ["example.com"] (Some (csr.mkCAConfig 1 "8760h")))
           (csr.mkCAConfig 1 "8760h")).
  - exists (Doubles.b "a0"). split; reflexivity.
  - reflexivity.
  - reflexivity.
Defined.

(** C9 on two bodies that differ in the [bundle] flag. *)
Lemma bundle_flag_is_not_read_witness :
  Handle Doubles.attesting Doubles.writer (Doubles.request "h0") []
  = Handle Doubles.attesting Doubles.writer (Doubles.request "h1") [].
Proof.
  apply (bundle_flag_is_not_read Doubles.attesting Doubles.writer
           (Doubles.request "h0") (Doubles.request "h1") []
           (Doubles.decoded ["example.com"; "www.example.com"] None false)
           (Doubles.decoded ["example.com"; "www.example.com"] None true)).
  - exists (Doubles.b "h0"). split; reflexivity.
  - exists (Doubles.b "h1"). split; reflexivity.
  - reflexivity.
  - reflexivity.
  - reflexivity.
Defined.

(** C5 on a block of type [PRIVATE KEY] and on an empty input. *)
Lemma computeSum_block_types_witness :
  let bad := errors.NewBadRequestString "not a CSR or certificate" in
  let none := mkSum EmptyString EmptyString EmptyString in
  computeSum (Doubles.b "Xgarbage") = (none, Some bad)
  /\ computeSum [] = (none, Some bad).
Proof.
  split.
  - apply (proj1 (proj2 (computeSum_block_types (Doubles.b "Xgarbage")))
             (pem.mkBlock "PRIVATE KEY" [] (Doubles.b "garbage"))).
    + reflexivity.
    + discriminate.
    + discriminate.
  - apply (proj1 (computeSum_block_types [])). reflexivity.
Defined.

End OnDoubles.

(** ** Further properties of [Handle] *)

Lemma ascending_sorted (l : list nat) :
  ascending l = true -> StronglySorted lt l.
Proof.
  intros Hasc. apply Sorted_StronglySorted; [intros x y z; lia|].
  induction l as [|a [|b l] IH]; [constructor|repeat constructor|].
  cbn [ascending] in Hasc. apply andb_prop in Hasc as [Hab Hl].
  constructor; [now apply IH|]. constructor. now apply Nat.ltb_lt.
Qed.

(** X1. The calls of a run are in pipeline order, each stage at most
    once: generation, signing, bundling, OCSP signing, OCSP parsing,
    store access, insertion, response.  No call is repeated. *)
Theorem calls_in_pipeline_order {World} `{Lib}
    (h : Handler (World := World)) w r wd s wd' tr :
  Handle h w r wd = (s, wd', tr) ->
  StronglySorted lt (stages tr).
Proof.
  intros Hrun. exec_Handle Hrun.
  all: apply ascending_sorted; reflexivity.
Qed.

(** X2. A run that ends before the first call into a collaborator
    leaves the world as it was and returns a bad request (status 400):
    requests are only refused by the handler itself as client errors. *)
Theorem refused_before_any_call {World} `{Lib}
    (h : Handler (World := World)) w r wd s wd' tr :
  Handle h w r wd = (s, wd', tr) ->
  calls tr = [] ->
  wd' = wd
  /\ exists e, s = Return (Some (errors.NewBadRequest e)).
Proof.
  intros Hrun Hno. exec_Handle Hrun; try discriminate Hno.
  all: split; [reflexivity|]; eexists; reflexivity.
Qed.

(** X3. When a call of the generator, the signer, the bundler or the
    OCSP signer, the parsing of the OCSP response or the insertion into
    the store fails, the handler returns that very error, unwrapped; the
    failed call is the last call of the run, and nothing is sent. *)
Theorem collaborator_error_is_returned {World} `{Lib}
    (h : Handler (World := World)) w r wd s wd' tr ev err :
  Handle h w r wd = (s, wd', tr) ->
  In ev tr ->
  failure ev = Some err ->
  s = Return (Some err)
  /\ last (calls tr) = Some ev
  /\ (forall e, In e tr -> is_response e = false).
Proof.
  intros Hrun Hin Hfail.
  exec_Handle Hrun; in_trace Hin; cbn [failure] in Hfail;
    try discriminate Hfail; simplify_eq.
  all: split; [reflexivity|]; split; [reflexivity|].
  all: intros e0 He; in_trace He; reflexivity.
Qed.

(** X4. The signer is asked to sign the CSR that the generator returned
    for the request section, under the profile and the label of the
    request; the generator was given the request section as decoded. *)
Theorem signer_gets_generated_csr {World} `{Lib}
    (h : Handler (World := World)) w r wd s wd' tr n sreq ret :
  Handle h w r wd = (s, wd', tr) ->
  decodes_to r n ->
  In (EvSign sreq ret) tr ->
  exists creq csr key,
    Request n = Some creq
    /\ In (EvProcessRequest creq (Ok (csr, key))) tr
    /\ sreq = signer.mkSignRequest
                (string_of_list_byte csr) (Profile n) (Label n).
Proof.
  intros Hrun (body & Hbody & Hjson) Hin. unfold emptyRequest in Hjson.
  exec_Handle Hrun; same_calls; in_trace Hin.
  all: match goal with v : (bytes * bytes)%type |- _ => destruct v as [? ?] end.
  all: eexists _, _, _; split; [reflexivity|];
    split; [cbn [In]; eauto 10 | reflexivity].
Qed.

(** X5. The bundler is only called with the certificate that the signer
    returned, without key, for the optimal chain and with an empty
    password, and only when the digests of the CSR and of the certificate
    were computed. *)
Theorem bundler_gets_signed_certificate {World} `{Lib}
    (h : Handler (World := World)) w r wd s wd' tr
    certs key flavor password ret :
  Handle h w r wd = (s, wd', tr) ->
  In (EvBundle certs key flavor password ret) tr ->
  key = None /\ flavor = bundler.Optimal /\ password = EmptyString
  /\ snd (computeSum certs) = None
  /\ exists sreq, In (EvSign sreq (Ok certs)) tr.
Proof.
  intros Hrun Hin. exec_Handle Hrun; in_trace Hin.
  all: repeat split;
    [ match goal with
      | E : computeSum ?x = _ |- snd (computeSum ?x) = _ => now rewrite E
      end
    | eexists; cbn [In]; eauto 10 ].
Qed.

(** X6. The record put into the store is made of the certificate of the
    bundle and of the OCSP response signed for it with status "good":
    the serial number in decimal, the authority key identifier in lower
    case hexadecimal, the OCSP response as it was signed, and its next
    update as expiry. *)
Theorem stored_record_content {World} `{Lib}
    (h : Handler (World := World)) w r wd s wd' tr rec ret :
  Handle h w r wd = (s, wd', tr) ->
  In (EvInsertOCSP rec ret) tr ->
  exists certs bundle ocspResponse parsed,
    In (EvBundle certs None bundler.Optimal EmptyString (Ok (Some bundle))) tr
    /\ In (EvOCSPSign (ocsp.mkSignRequest (bundler.Cert bundle) "good")
             (Ok ocspResponse)) tr
    /\ In (EvParseResponse ocspResponse None (Ok parsed)) tr
    /\ rec = certdb.mkOCSPRecord
               (big_String (x509.SerialNumber (bundler.Cert bundle)))
               (hex.EncodeToString
                  (x509.AuthorityKeyId (bundler.Cert bundle)))
               (string_of_list_byte ocspResponse)
               (stdocsp.NextUpdate parsed).
Proof.
  intros Hrun Hin. exec_Handle Hrun; in_trace Hin.
  all: eexists _, _, _, _; repeat split; cbn [In]; eauto 12.
Qed.

(** X7. The result sent has exactly six entries: the key and the CSR
    that the generator returned, the certificate that the signer
    returned, the serial number (decimal) and the expiry (unix seconds)
    of the bundle made of it, and the digests of the CSR and of the
    certificate. *)
Theorem response_content {World} `{Lib}
    (h : Handler (World := World)) w r wd s wd' tr resp ret :
  Handle h w r wd = (s, wd', tr) ->
  In (EvSendResponse resp ret) tr ->
  exists creq csr key sreq certBytes bundle,
    In (EvProcessRequest creq (Ok (csr, key))) tr
    /\ In (EvSign sreq (Ok certBytes)) tr
    /\ In (EvBundle certBytes None bundler.Optimal EmptyString
             (Ok (Some bundle))) tr
    /\ api.Result resp =
       {[ "private_key" := VString (string_of_list_byte key);
          "certificate_request" := VString (string_of_list_byte csr);
          "certificate" := VString (string_of_list_byte certBytes);
          "serial_number" :=
            VString (big_String (x509.SerialNumber (bundler.Cert bundle)));
          "expiration" := VInt64 (time.Unix (bundler.Expires bundle));
          "sums" := VSums {[ "certificate_request" := fst (computeSum csr);
                             "certificate" := fst (computeSum certBytes) ]} ]}.
Proof.
  intros Hrun Hin. exec_Handle Hrun; in_trace Hin.
  all: match goal with v : (bytes * bytes)%type |- _ => destruct v as [? ?] end.
  all: cbn [fst snd] in *.
  all: eexists _, _, _, _, _, _;
    split; [cbn [In]; eauto 12|];
    split; [cbn [In]; eauto 12|];
    split; [cbn [In]; eauto 12|].
  all: repeat match goal with
       | E : computeSum ?x = _ |- context [computeSum ?x] => rewrite E
       end; reflexivity.
Qed.

(** X8. If the signer has no store ([GetDBAccessor] returns nil), the
    handler panics at the insertion.  This happens with an OCSP signer
    only, after the certificate was signed and an OCSP response for it
    signed and parsed; nothing is stored and nothing is sent. *)
Theorem nil_store_panics {World} `{Lib}
    (h : Handler (World := World)) w r wd s wd' tr :
  Handle h w r wd = (s, wd', tr) ->
  In (EvGetDBAccessor true) tr ->
  s = Panic
  /\ ocspSigner h <> None
  /\ (exists sreq certBytes, In (EvSign sreq (Ok certBytes)) tr)
  /\ (exists oreq ocspResponse parsed,
        In (EvOCSPSign oreq (Ok ocspResponse)) tr
        /\ In (EvParseResponse ocspResponse None (Ok parsed)) tr)
  /\ (forall e, In e tr ->
        is_response e = false /\ stage e <> Some 7%nat).
Proof.
  intros Hrun Hin. exec_Handle Hrun; try solve [in_trace Hin].
  split; [reflexivity|]. split; [congruence|].
  split; [eexists _, _; cbn [In]; eauto 10|].
  split; [eexists _, _, _; split; cbn [In]; eauto 12|].
  intros e He; in_trace He; split; (reflexivity || discriminate).
Qed.

(** X9. When an OCSP signer is configured, a response is only sent after
    the OCSP record was stored. *)
Theorem response_only_after_record_stored {World} `{Lib}
    (h : Handler (World := World)) w r wd s wd' tr resp ret :
  Handle h w r wd = (s, wd', tr) ->
  ocspSigner h <> None ->
  In (EvSendResponse resp ret) tr ->
  exists rec pre post,
    tr = pre ++ EvInsertOCSP rec None :: post
    /\ In (EvSendResponse resp ret) post.
Proof.
  intros Hrun Hsome Hin. exec_Handle Hrun; in_trace Hin; try congruence.
  all: match goal with
       | |- exists rec pre post, ?l = _ /\ _ =>
           eexists _, [_; _; _; _; _; _; _], [_]
       end; split; [reflexivity|]; cbn [In]; auto.
Qed.

(** X10. At most one response is sent; it is the last thing a run does,
    and the run returns what writing it returned. *)
Theorem response_is_last {World} `{Lib}
    (h : Handler (World := World)) w r wd s wd' tr resp ret :
  Handle h w r wd = (s, wd', tr) ->
  In (EvSendResponse resp ret) tr ->
  s = Return ret
  /\ exists pre,
       tr = pre ++ [EvSendResponse resp ret]
       /\ forall e, In e pre -> is_response e = false.
Proof.
  intros Hrun Hin. exec_Handle Hrun; in_trace Hin.
  all: split; [reflexivity|].
  all: match goal with
       | |- exists pre, ?l = _ /\ _ => exists (removelast l)
       end; split; [reflexivity|].
  all: cbn [removelast]; intros e He; in_trace He; reflexivity.
Qed.

(** X11. What the handler answers when the request cannot be used: a
    body that cannot be read or decoded gives a bad request around the
    error of reading or decoding, a decoded request without request
    section the bad request "missing request section"; each time the
    world is as before and the only other thing done is a warning. *)
Theorem undecodable_request {World} `{Lib}
    (h : Handler (World := World)) w r wd :
  let hello := EvLog log.Info "request for csr (with ocsp support)" None in
  (forall err,
      http.Body r = Err err ->
      Handle h w r wd
      = (Return (Some (errors.NewBadRequest err)), wd,
         [hello;
          EvLog log.Warning "failed to read request body: %v" (Some err)]))
  /\ (forall body err,
      http.Body r = Ok body ->
      json_Unmarshal body emptyRequest = Err err ->
      Handle h w r wd
      = (Return (Some (errors.NewBadRequest err)), wd,
         [hello;
          EvLog log.Warning "failed to unmarshal request: %v" (Some err)]))
  /\ (forall n,
      decodes_to r n ->
      Request n = None ->
      Handle h w r wd
      = (Return (Some (errors.NewBadRequestString "missing request section")),
         wd,
         [hello; EvLog log.Warning "empty request received" None])).
Proof.
  intros hello. unfold emptyRequest, decodes_to.
  repeat split.
  - intros err Hbody.
    destruct (Handle h w r wd) as [[s wd'] tr] eqn:Hrun.
    exec_Handle Hrun; same_calls; reflexivity.
  - intros body err Hbody Hjson.
    destruct (Handle h w r wd) as [[s wd'] tr] eqn:Hrun.
    exec_Handle Hrun; same_calls; reflexivity.
  - intros n (body & Hbody & Hjson) Hreq. unfold emptyRequest in Hjson.
    destruct (Handle h w r wd) as [[s wd'] tr] eqn:Hrun.
    exec_Handle Hrun; same_calls; reflexivity.
Qed.

(** ** Properties of [NewHandler] *)

Lemma options_fold_app {World} (opts1 opts2 : list (Opt (World := World))) o :
  fold_left (fun options (opt : Opt) => opt options) (opts1 ++ opts2) o
  = fold_left (fun options (opt : Opt) => opt options) opts2
      (fold_left (fun options (opt : Opt) => opt options) opts1 o).
Proof. apply fold_left_app. Qed.

(** X12. The last option of each kind wins, and the two kinds do not
    disturb each other: whatever options come first, a handler built
    with [WithOCSPSigner s] and [WithBundler ca int] at the end, in
    either order, opens the bundler on [ca] and [int]; it fails with the
    error of the bundler, or is the handler of the validator's
    generator, that bundler, the signer and [s], for POST only. *)
Theorem NewHandler_last_options_win {World} `{Build World}
    (validator : Validator) (sg : signer.Signer World)
    (opts : list Opt) s ca int wd :
  let built :=
    NewHandler validator sg
      (opts ++ [WithOCSPSigner s; WithBundler ca int]) wd in
  built
  = NewHandler validator sg (opts ++ [WithBundler ca int; WithOCSPSigner s]) wd
  /\ match bundler_NewBundler ca int wd with
     | (Err err, wd') => built = (Err err, wd')
     | (Ok b, wd') =>
         built = (Ok (mkHTTPHandler
                        (mkHandler (csr_Generator validator) b sg s)
                        ["POST"]), wd')
     end.
Proof.
  intros built. subst built. unfold NewHandler. cbv zeta.
  rewrite !options_fold_app. cbn [fold_left].
  unfold WithOCSPSigner, WithBundler.
  cbn [options.caBundleFile options.intBundleFile options.ocspSigner].
  split; [reflexivity|].
  destruct (bundler_NewBundler ca int wd) as [[b|err] wd']; reflexivity.
Qed.

Lemma only_WithBundler_no_signer {World} (opts : list (Opt (World := World))) o :
  Forall (fun opt => exists ca int, opt = WithBundler ca int) opts ->
  options.ocspSigner
    (fold_left (fun options (opt : Opt) => opt options) opts o)
  = options.ocspSigner o.
Proof.
  intros Hall. revert o.
  induction Hall as [|opt opts (ca & int & ->) _ IH]; intros o; [reflexivity|].
  cbn [fold_left]. now rewrite IH.
Qed.

Lemma no_signer_no_revocation {World} `{Lib}
    (h : Handler (World := World)) w r wd s wd' tr :
  ocspSigner h = None ->
  Handle h w r wd = (s, wd', tr) ->
  forall e, In e tr -> is_revocation_call e = false.
Proof.
  intros Hnone Hrun. exec_Handle Hrun; try congruence.
  all: intros e He; in_trace He; reflexivity.
Qed.

(** X13. A handler built without [WithOCSPSigner] option never signs
    or parses an OCSP response and never touches the certificate store,
    whatever the request. *)
Theorem handler_built_without_ocsp_option {World} `{Lib} `{Build World}
    (validator : Validator) (sg : signer.Signer World) (opts : list Opt)
    wd0 hh wd1 w r wd s wd' tr :
  Forall (fun opt => exists ca int, opt = WithBundler ca int) opts ->
  NewHandler validator sg opts wd0 = (Ok hh, wd1) ->
  Handle (HTTPHandler_Handler hh) w r wd = (s, wd', tr) ->
  Methods hh = ["POST"]
  /\ forall e, In e tr -> is_revocation_call e = false.
Proof.
  intros Hall Hnew Hrun. unfold NewHandler in Hnew. cbv zeta in Hnew.
  destruct (bundler_NewBundler _ _ wd0) as [[b|err] wd2]; [|discriminate].
  injection Hnew as <- <-. split; [reflexivity|].
  eapply no_signer_no_revocation; [|exact Hrun].
  cbn [HTTPHandler_Handler ocspSigner].
  now rewrite only_WithBundler_no_signer.
Qed.

(** ** Properties of [computeSum] *)

Lemma hexdigit_upper (n : N) :
  (n < 16)%N -> is_upper_hex (hexdigit true n) = true.
Proof.
  intros Hn. assert (Hc : In n (map N.of_nat (seq 0 16))).
  { apply in_map_iff. exists (N.to_nat n). split; [lia|].
    apply in_seq. lia. }
  cbn in Hc. repeat destruct Hc as [<- | Hc]; try reflexivity.
  contradiction.
Qed.

Lemma hexstring_length (upper : bool) (bs : bytes) :
  String.length (hexstring upper bs) = (2 * length bs)%nat.
Proof. induction bs as [|b bs IH]; cbn [hexstring String.length length]; lia. Qed.

Lemma hexstring_upper (bs : bytes) :
  all_chars is_upper_hex (hexstring true bs) = true.
Proof.
  induction bs as [|b bs IH]; [reflexivity|].
  cbn [hexstring all_chars]. rewrite IH.
  assert (Hb : (Byte.to_N b < 256)%N)
    by (pose proof (Byte.to_N_bounded b); lia).
  rewrite !hexdigit_upper; [reflexivity| |].
  - apply N.mod_lt. discriminate.
  - apply N.Div0.div_lt_upper_bound. lia.
Qed.

(** X14. The digests [computeSum] returns are taken over the [Raw] bytes
    of the parsed request or certificate of the first PEM block, not over
    the input; each is printed in upper case hexadecimal, two characters
    for each byte of the digest. *)
Theorem computeSum_digests `{Lib} (in_ : bytes) (sum : Sum) :
  computeSum in_ = (sum, None) ->
  exists p data,
    fst (pem_Decode in_) = Some p
    /\ ((pem.Type_ p = "CERTIFICATE REQUEST"
         /\ exists req, x509_ParseCertificateRequest (pem.Bytes p) = Ok req
                        /\ data = x509.RawCSR req)
        \/ (pem.Type_ p = "CERTIFICATE"
            /\ exists cert, x509_ParseCertificate (pem.Bytes p) = Ok cert
                            /\ data = x509.Raw cert))
    /\ sum = mkSum (Sprintf_X (md5_Sum data)) (Sprintf_X (sha1_Sum data))
               (Sprintf_X (sha256_Sum256 data))
    /\ String.length (MD5 sum) = (2 * length (md5_Sum data))%nat
    /\ String.length (SHA1 sum) = (2 * length (sha1_Sum data))%nat
    /\ String.length (SHA256 sum) = (2 * length (sha256_Sum256 data))%nat
    /\ all_chars is_upper_hex (MD5 sum) = true
    /\ all_chars is_upper_hex (SHA1 sum) = true
    /\ all_chars is_upper_hex (SHA256 sum) = true.
Proof.
  unfold computeSum. destruct (pem_Decode in_) as [[p|] rest]; [|discriminate].
  cbn [fst].
  destruct (String.eqb_spec (pem.Type_ p) "CERTIFICATE REQUEST") as [Hty|_].
  - destruct (x509_ParseCertificateRequest (pem.Bytes p)) as [req|e] eqn:Hp;
      [|discriminate].
    intros [= <-]. exists p, (x509.RawCSR req).
    split; [reflexivity|]. split; [left; eauto|]. split; [reflexivity|].
    cbn [MD5 SHA1 SHA256]. unfold Sprintf_X.
    rewrite !hexstring_length, !hexstring_upper. auto 10.
  - destruct (String.eqb_spec (pem.Type_ p) "CERTIFICATE") as [Hty|_];
      [|discriminate].
    destruct (x509_ParseCertificate (pem.Bytes p)) as [cert|e] eqn:Hp;
      [|discriminate].
    intros [= <-]. exists p, (x509.Raw cert).
    split; [reflexivity|]. split; [right; eauto|]. split; [reflexivity|].
    cbn [MD5 SHA1 SHA256]. unfold Sprintf_X.
    rewrite !hexstring_length, !hexstring_upper. auto 10.
Qed.

(** X15. [computeSum] only looks at the type and at the payload of the
    first PEM block: inputs whose first blocks agree on both (whatever
    their headers, and whatever follows the block) have the same digests
    or the same error. *)
Theorem computeSum_reads_first_block `{Lib} (in1 in2 : bytes) p1 p2 :
  fst (pem_Decode in1) = Some p1 ->
  fst (pem_Decode in2) = Some p2 ->
  pem.Type_ p1 = pem.Type_ p2 ->
  pem.Bytes p1 = pem.Bytes p2 ->
  computeSum in1 = computeSum in2.
Proof.
  intros H1 H2 Hty Hbytes. unfold computeSum.
  destruct (pem_Decode in1) as [o1 rest1], (pem_Decode in2) as [o2 rest2].
  cbn [fst] in H1, H2. subst o1 o2. now rewrite Hty, Hbytes.
Qed.

(** X16. When [computeSum] fails it returns no digests (the zero [Sum]),
    and its error is either its own bad request "not a CSR or
    certificate" or the error of the x509 parser, as the parser gave
    it. *)
Theorem computeSum_errors `{Lib} (in_ : bytes) (sum : Sum) (err : error) :
  computeSum in_ = (sum, Some err) ->
  sum = mkSum EmptyString EmptyString EmptyString
  /\ (err = errors.NewBadRequestString "not a CSR or certificate"
      \/ exists p,
           fst (pem_Decode in_) = Some p
           /\ (x509_ParseCertificateRequest (pem.Bytes p) = Err err
               \/ x509_ParseCertificate (pem.Bytes p) = Err err)).
Proof.
  unfold computeSum. destruct (pem_Decode in_) as [[p|] rest]; cbn [fst].
  - destruct (String.eqb (pem.Type_ p) "CERTIFICATE REQUEST").
    + destruct (x509_ParseCertificateRequest (pem.Bytes p)) eqn:Hp;
        intros [= <- <-]. split; [reflexivity|]. right. eauto.
    + destruct (String.eqb (pem.Type_ p) "CERTIFICATE").
      * destruct (x509_ParseCertificate (pem.Bytes p)) eqn:Hp;
          intros [= <- <-]. split; [reflexivity|]. right. eauto.
      * intros [= <- <-]. auto.
  - intros [= <- <-]. auto.
Qed.
(** ** The further properties on the test doubles *)

Section MoreOnDoubles.
#[local] Existing Instance Doubles.lib.
#[local] Existing Instance Doubles.build.

Lemma calls_in_pipeline_order_witness :
  let run :=
    Handle Doubles.attesting Doubles.writer (Doubles.request "h0") [] in
  StronglySorted lt (stages run.2).
Proof.
  intros run.
  apply (calls_in_pipeline_order Doubles.attesting Doubles.writer
           (Doubles.request "h0") [] run.1.1 run.1.2 run.2).
  vm_compute. reflexivity.
Defined.

Lemma refused_before_any_call_witness :
  let run := Handle Doubles.attesting Doubles.writer (Doubles.request "n0") [] in
  run.1.2 = []
  /\ exists e, run.1.1 = Return (Some (errors.NewBadRequest e)).
Proof.
  intros run.
  apply (refused_before_any_call Doubles.attesting Doubles.writer
           (Doubles.request "n0") [] run.1.1 run.1.2 run.2).
  - vm_compute. reflexivity.
  - vm_compute. reflexivity.
Defined.

Lemma collaborator_error_is_returned_witness :
  let run :=
    Handle Doubles.storeDown Doubles.writer (Doubles.request "h0") [] in
  let err := errors.errorString "database is down" in
  run.1.1 = Return (Some err)
  /\ last (calls run.2) = Some (EvInsertOCSP Doubles.theRecord (Some err))
  /\ (forall e, In e run.2 -> is_response e = false).
Proof.
  intros run err.
  apply (collaborator_error_is_returned Doubles.storeDown Doubles.writer
           (Doubles.request "h0") [] run.1.1 run.1.2 run.2
           (EvInsertOCSP Doubles.theRecord (Some err)) err).
  - vm_compute. reflexivity.
  - vm_compute. auto 10.
  - reflexivity.
Defined.

Lemma signer_gets_generated_csr_witness :
  let run :=
    Handle Doubles.attesting Doubles.writer (Doubles.request "h0") [] in
  let n := Doubles.decoded ["example.com"; "www.example.com"] None false in
  exists creq csr key,
    Request n = Some creq
    /\ In (EvProcessRequest creq (Ok (csr, key))) run.2
    /\ Doubles.theSignRequest
       = signer.mkSignRequest (string_of_list_byte csr) (Profile n) (Label n).
Proof.
  intros run n.
  apply (signer_gets_generated_csr Doubles.attesting Doubles.writer
           (Doubles.request "h0") [] run.1.1 run.1.2 run.2 n
           Doubles.theSignRequest (Ok (Doubles.b "Ccert"))).
  - vm_compute. reflexivity.
  - exists (Doubles.b "h0"). split; reflexivity.
  - vm_compute. auto 10.
Defined.

Lemma bundler_gets_signed_certificate_witness :
  let run := Handle Doubles.plain Doubles.writer (Doubles.request "h0") [] in
  (None : option bytes) = None /\ bundler.Optimal = bundler.Optimal
  /\ EmptyString = EmptyString
  /\ snd (computeSum (Doubles.b "Ccert")) = None
  /\ exists sreq, In (EvSign sreq (Ok (Doubles.b "Ccert"))) run.2.
Proof.
  intros run.
  apply (bundler_gets_signed_certificate Doubles.plain Doubles.writer
           (Doubles.request "h0") [] run.1.1 run.1.2 run.2
           (Doubles.b "Ccert") None bundler.Optimal EmptyString
           (Ok (Some Doubles.theBundle))).
  - vm_compute. reflexivity.
  - vm_compute. auto 10.
Defined.

Lemma stored_record_content_witness :
  let run :=
    Handle Doubles.attesting Doubles.writer (Doubles.request "h0") [] in
  exists certs bundle ocspResponse parsed,
    In (EvBundle certs None bundler.Optimal EmptyString (Ok (Some bundle)))
      run.2
    /\ In (EvOCSPSign (ocsp.mkSignRequest (bundler.Cert bundle) "good")
             (Ok ocspResponse)) run.2
    /\ In (EvParseResponse ocspResponse None (Ok parsed)) run.2
    /\ Doubles.theRecord
       = certdb.mkOCSPRecord
           (big_String (x509.SerialNumber (bundler.Cert bundle)))
           (hex.EncodeToString (x509.AuthorityKeyId (bundler.Cert bundle)))
           (string_of_list_byte ocspResponse)
           (stdocsp.NextUpdate parsed).
Proof.
  intros run.
  apply (stored_record_content Doubles.attesting Doubles.writer
           (Doubles.request "h0") [] run.1.1 run.1.2 run.2
           Doubles.theRecord None).
  - vm_compute. reflexivity.
  - vm_compute. auto 10.
Defined.

Lemma response_content_witness :
  let run := Handle Doubles.plain Doubles.writer (Doubles.request "h0") [] in
  exists creq csr key sreq certBytes bundle,
    In (EvProcessRequest creq (Ok (csr, key))) run.2
    /\ In (EvSign sreq (Ok certBytes)) run.2
    /\ In (EvBundle certBytes None bundler.Optimal EmptyString
             (Ok (Some bundle))) run.2
    /\ api.Result (api.NewSuccessResponse Doubles.theResult) =
       {[ "private_key" := VString (string_of_list_byte key);
          "certificate_request" := VString (string_of_list_byte csr);
          "certificate" := VString (string_of_list_byte certBytes);
          "serial_number" :=
            VString (big_String (x509.SerialNumber (bundler.Cert bundle)));
          "expiration" := VInt64 (time.Unix (bundler.Expires bundle));
          "sums" := VSums {[ "certificate_request" := fst (computeSum csr);
                             "certificate" := fst (computeSum certBytes) ]} ]}.
Proof.
  intros run.
  apply (response_content Doubles.plain Doubles.writer
           (Doubles.request "h0") [] run.1.1 run.1.2 run.2
           (api.NewSuccessResponse Doubles.theResult) None).
  - vm_compute. reflexivity.
  - vm_compute. auto 10.
Defined.

Lemma nil_store_panics_witness :
  let run := Handle Doubles.noStore Doubles.writer (Doubles.request "h0") [] in
  run.1.1 = Panic
  /\ ocspSigner Doubles.noStore <> None
  /\ (exists sreq certBytes, In (EvSign sreq (Ok certBytes)) run.2)
  /\ (exists oreq ocspResponse parsed,
        In (EvOCSPSign oreq (Ok ocspResponse)) run.2
        /\ In (EvParseResponse ocspResponse None (Ok parsed)) run.2)
  /\ (forall e, In e run.2 ->
        is_response e = false /\ stage e <> Some 7%nat).
Proof.
  intros run.
  apply (nil_store_panics Doubles.noStore Doubles.writer
           (Doubles.request "h0") [] run.1.1 run.1.2 run.2).
  - vm_compute. reflexivity.
  - vm_compute. auto 10.
Defined.

Lemma response_only_after_record_stored_witness :
  let run :=
    Handle Doubles.attesting Doubles.writer (Doubles.request "h0") [] in
  let resp := api.NewSuccessResponse Doubles.theResult in
  exists rec pre post,
    run.2 = pre ++ EvInsertOCSP rec None :: post
    /\ In (EvSendResponse resp None) post.
Proof.
  intros run resp.
  apply (response_only_after_record_stored Doubles.attesting Doubles.writer
           (Doubles.request "h0") [] run.1.1 run.1.2 run.2 resp None).
  - vm_compute. reflexivity.
  - discriminate.
  - vm_compute. auto 10.
Defined.

Lemma response_is_last_witness :
  let run := Handle Doubles.plain Doubles.writer (Doubles.request "h0") [] in
  let resp := api.NewSuccessResponse Doubles.theResult in
  run.1.1 = Return None
  /\ exists pre,
       run.2 = pre ++ [EvSendResponse resp None]
       /\ forall e, In e pre -> is_response e = false.
Proof.
  intros run resp.
  apply (response_is_last Doubles.plain Doubles.writer
           (Doubles.request "h0") [] run.1.1 run.1.2 run.2 resp None).
  - vm_compute. reflexivity.
  - vm_compute. auto 10.
Defined.

Lemma handler_built_without_ocsp_option_witness :
  let hh :=
    mkHTTPHandler
      (mkHandler Doubles.generator (Doubles.bundlerWith (Some Doubles.theBundle))
         (Doubles.signerWith (Doubles.b "Ccert") None) None)
      ["POST"] in
  let run :=
    Handle (HTTPHandler_Handler hh) Doubles.writer (Doubles.request "h0") [] in
  Methods hh = ["POST"]
  /\ forall e, In e run.2 -> is_revocation_call e = false.
Proof.
  intros hh run.
  apply (handler_built_without_ocsp_option Doubles.validator
           (Doubles.signerWith (Doubles.b "Ccert") None)
           [WithBundler "ca.pem" "int.pem"] [] hh []
           Doubles.writer (Doubles.request "h0") [] run.1.1 run.1.2 run.2).
  - constructor; [|constructor]. exists "ca.pem", "int.pem". reflexivity.
  - reflexivity.
  - vm_compute. reflexivity.
Defined.

Lemma computeSum_digests_witness :
  let sum := fst (computeSum (Doubles.b "Ccert")) in
  exists p data,
    fst (pem_Decode (Doubles.b "Ccert")) = Some p
    /\ ((pem.Type_ p = "CERTIFICATE REQUEST"
         /\ exists req, x509_ParseCertificateRequest (pem.Bytes p) = Ok req
                        /\ data = x509.RawCSR req)
        \/ (pem.Type_ p = "CERTIFICATE"
            /\ exists cert, x509_ParseCertificate (pem.Bytes p) = Ok cert
                            /\ data = x509.Raw cert))
    /\ sum = mkSum (Sprintf_X (md5_Sum data)) (Sprintf_X (sha1_Sum data))
               (Sprintf_X (sha256_Sum256 data))
    /\ String.length (MD5 sum) = (2 * length (md5_Sum data))%nat
    /\ String.length (SHA1 sum) = (2 * length (sha1_Sum data))%nat
    /\ String.length (SHA256 sum) = (2 * length (sha256_Sum256 data))%nat
    /\ all_chars is_upper_hex (MD5 sum) = true
    /\ all_chars is_upper_hex (SHA1 sum) = true
    /\ all_chars is_upper_hex (SHA256 sum) = true.
Proof.
  intros sum.
  apply (computeSum_digests (Doubles.b "Ccert") sum).
  reflexivity.
Defined.

Lemma computeSum_reads_first_block_witness :
  computeSum (H := Doubles.libFirst) (Doubles.b "Ccert.Rcsr")
  = computeSum (H := Doubles.libFirst) (Doubles.b "Ccert.more text").
Proof.
  apply (computeSum_reads_first_block (H := Doubles.libFirst)
           (Doubles.b "Ccert.Rcsr") (Doubles.b "Ccert.more text")
           (pem.mkBlock "CERTIFICATE" [] (Doubles.b "cert"))
           (pem.mkBlock "CERTIFICATE" [] (Doubles.b "cert")));
    reflexivity.
Defined.

Lemma computeSum_errors_witness :
  let err := errors.errorString "x509: malformed certificate" in
  mkSum EmptyString EmptyString EmptyString
  = mkSum EmptyString EmptyString EmptyString
  /\ (err = errors.NewBadRequestString "not a CSR or certificate"
      \/ exists p,
           fst (pem_Decode (Doubles.b "C")) = Some p
           /\ (x509_ParseCertificateRequest (pem.Bytes p) = Err err
               \/ x509_ParseCertificate (pem.Bytes p) = Err err)).
Proof.
  intros err.
  apply (computeSum_errors (Doubles.b "C")
           (mkSum EmptyString EmptyString EmptyString) err).
  reflexivity.
Defined.

End MoreOnDoubles.

(** ** Properties of the database statistics collector *)

(** X17. [Collect] reads the statistics once and sends one metric for
    each descriptor that [Describe] sends, in the same order, all made
    from that one reading; the world is what the reading left. *)
Theorem Collect_matches_Describe {World}
    (c : dbmetrics.StatsCollector (World := World)) (wd : World) :
  let stats := fst (dbmetrics.Stats (dbmetrics.s c) wd) in
  map prometheus.desc (fst (dbmetrics.Collect c wd)) = dbmetrics.Describe c
  /\ snd (dbmetrics.Collect c wd) = snd (dbmetrics.Stats (dbmetrics.s c) wd)
  /\ map prometheus.value (fst (dbmetrics.Collect c wd))
     = [ prometheus.float64_of_int (sql.MaxOpenConnections stats);
         prometheus.float64_of_int (sql.OpenConnections stats);
         prometheus.float64_of_int (sql.InUse stats);
         prometheus.float64_of_int (sql.Idle stats);
         prometheus.float64_of_int (sql.WaitCount stats);
         prometheus.Duration_Seconds (sql.WaitDuration stats);
         prometheus.float64_of_int (sql.MaxIdleClosed stats);
         prometheus.float64_of_int (sql.MaxLifetimeClosed stats) ].
Proof.
  intros stats. subst stats. unfold dbmetrics.Collect.
  destruct (dbmetrics.Stats (dbmetrics.s c) wd) as [stats wd'].
  repeat split.
Qed.

(** X18. The descriptors of a collector made by [NewStatsCollector] have
    eight different names, no variable labels, and the one constant
    label [db_name] with the name of the database. *)
Theorem NewStatsCollector_descriptors {World}
    (s : dbmetrics.Statser (World := World)) (dbName : string) :
  let ds := dbmetrics.Describe (dbmetrics.NewStatsCollector s dbName) in
  length ds = 8%nat
  /\ List.NoDup (map prometheus.fqName ds)
  /\ Forall (fun d =>
       prometheus.variableLabels d = []
       /\ prometheus.constLabels d = {[ "db_name" := dbName ]}) ds.
Proof.
  intros ds. subst ds. cbn [dbmetrics.Describe dbmetrics.NewStatsCollector
    dbmetrics.maxOpenDesc dbmetrics.openDesc dbmetrics.inUseDesc
    dbmetrics.idleDesc dbmetrics.waitedForDesc dbmetrics.blockedSecondsDesc
    dbmetrics.closedMaxIdleDesc dbmetrics.closedMaxLifetimeDesc
    map prometheus.fqName length].
  split; [reflexivity|]. split.
  - repeat (apply List.NoDup_cons;
      [cbn [In]; intuition discriminate|]).
    apply List.NoDup_nil.
  - repeat (constructor; [split; reflexivity|]). constructor.
Qed.
